(** * Pippa memory tool: the memory store of [mcp_pippa_memory]

    A shallow embedding of [mcp_pippa_memory/memory.py] and of the part of
    [mcp_pippa_memory/config.py] it reads, with the properties of the four
    operations [remember], [recall], [list_memories] and [delete_memory];
    and of their callers: the tool handler of [mcp_pippa_memory/server.py]
    and the forms of [streamlit_app.py] that write to the store.

    The tool talks to two collaborators that are not part of the package:
    the OpenAI embeddings endpoint and a ChromaDB collection.  The tool code
    is written once against an interface of the collection ([Collection]);
    [Chroma] is an in-memory instance that follows the behaviour of the
    chromadb client the tool is written for. *)

From Stdlib Require Import ZArith Ascii String QArith Qcanon.
From stdpp Require Import base numbers list strings gmap sorting pretty.

Local Open Scope string_scope.
Local Open Scope Z_scope.

(** ** Python values and exceptions *)

(** The values that reach the tool as [limit] and that live in [SETTINGS]:
    [None], booleans, integers and strings (the protocol layer hands over
    whatever the JSON arguments held). *)
Inductive PyVal : Type :=
  | VNone
  | VBool (b : bool)
  | VInt (n : Z)
  | VStr (s : string).

(** An instance of a subclass of [Exception]: its class name and [str(e)]. *)
Record Exception : Type := mkException { exc_class : string; exc_str : string }.

(** What a call does: return a value or raise. *)
Inductive outcome (A : Type) : Type :=
  | Return (a : A)
  | Raise (e : Exception).
Arguments Return {A} a.
Arguments Raise {A} e.

Definition is_return {A} (o : outcome A) : bool :=
  match o with Return _ => true | Raise _ => false end.

Definition outcome_map {A B} (f : A → B) (o : outcome A) : outcome B :=
  match o with Return a => Return (f a) | Raise e => Raise e end.

(** [l[i]] on a Python list. *)
Definition subscript {A} (l : list A) (i : nat) : outcome A :=
  match l !! i with
  | Some x => Return x
  | None => Raise (mkException "IndexError" "list index out of range")
  end.

(** ** Records of the collection *)

(** An embedding is a list of floats; floats are kept as rationals. *)
Definition Embedding : Type := list Qc.

(** A metadata dict. *)
Abbreviation Metadata := (gmap string string).

(** The dict returned by [collection.query]: one inner list per query
    embedding. *)
Record QueryResult : Type := mkQueryResult {
  q_ids : list (list string);
  q_documents : list (list string);
  q_metadatas : list (list (option Metadata))
}.

(** The dict returned by [collection.get]. *)
Record GetResult : Type := mkGetResult {
  g_ids : list string;
  g_documents : list string;
  g_metadatas : list (option Metadata)
}.

(** The four calls the tool makes on [self.collection].  The tool passes
    one-element lists to [add], [query] and [delete]; the interface takes
    the element.  A call that raises leaves the collection as it was. *)
Class Collection (C : Type) : Type := {
  coll_add : string → Embedding → Metadata → string → C → outcome C;
  coll_query : Embedding → PyVal → C → outcome QueryResult;
  coll_get : PyVal → C → outcome GetResult;
  coll_delete : string → C → outcome C
}.

(** ** config.py *)

Module config.

Definition logging_INFO : Z := 20.

Definition DEFAULT_SETTINGS (DB_DIR : string) : gmap string PyVal :=
  <["similarity_top_k" := VInt 3]>
  (<["embedding_model" := VStr "text-embedding-3-small"]>
  (<["db_path" := VStr DB_DIR]>
  (<["log_level" := VInt logging_INFO]> ∅))).

(** [_get_env_int]: [int(val_str)] is a parameter. *)
Definition _get_env_int (getenv : string → option string)
    (py_int : string → option Z) (name : string) (default : PyVal) : PyVal :=
  match getenv name with
  | Some val_str =>
      if decide (val_str = "") then default
      else match py_int val_str with
           | Some n => VInt n
           | None => default
           end
  | None => default
  end.

(** [SETTINGS.update(kwargs)] for one keyword. *)
Definition update_settings (key : string) (value : PyVal)
    (SETTINGS : gmap string PyVal) : gmap string PyVal :=
  <[key := value]> SETTINGS.

(** [SETTINGS.get(key, default)]. *)
Definition get_setting (SETTINGS : gmap string PyVal) (key : string)
    (default : PyVal) : PyVal :=
  match SETTINGS !! key with
  | Some v => v
  | None => default
  end.

End config.

(** ** The world the tool runs in *)

(** What the outside answers: the n-th [uuid.uuid4()], the n-th
    [datetime.now().isoformat()], and the answer of the n-th call of
    [embeddings.create(model, input)], already reduced to
    [response.data[0].embedding]. *)
Record Host : Type := mkHost {
  uuid4 : nat → string;
  now_isoformat : nat → string;
  embeddings_create : nat → string → string → outcome Embedding
}.

(** The state the methods read and write: [self.collection],
    [self.embedding_model], the module-level [SETTINGS] of config.py, the
    lines printed so far, and how many times each source of [Host] has been
    asked. *)
Record World (C : Type) : Type := mkWorld {
  collection : C;
  embedding_model : string;
  SETTINGS : gmap string PyVal;
  stdout : list string;
  uuid_calls : nat;
  clock_reads : nat;
  api_calls : nat
}.
Arguments mkWorld {C}.
Arguments collection {C}.
Arguments embedding_model {C}.
Arguments SETTINGS {C}.
Arguments stdout {C}.
Arguments uuid_calls {C}.
Arguments clock_reads {C}.
Arguments api_calls {C}.

(** A method body: from a world to an outcome and the world after it. *)
Definition Py (C A : Type) : Type := World C → outcome A * World C.

Definition ret {C A} (a : A) : Py C A := λ w, (Return a, w).
Definition raise {C A} (e : Exception) : Py C A := λ w, (Raise e, w).
Definition bind {C A B} (m : Py C A) (k : A → Py C B) : Py C B :=
  λ w, match m w with
       | (Return a, w') => k a w'
       | (Raise e, w') => (Raise e, w')
       end.
(** [try: body except Exception as e: handler(e)]. *)
Definition try_except {C A} (body : Py C A) (handler : Exception → Py C A)
    : Py C A :=
  λ w, match body w with
       | (Return a, w') => (Return a, w')
       | (Raise e, w') => handler e w'
       end.
(** Lift a call that cannot touch the world. *)
Definition lift {C A} (o : outcome A) : Py C A := λ w, (o, w).

Declare Scope py_scope.
Delimit Scope py_scope with py.
Notation "'let!' x ':=' m 'in' k" := (bind m (λ x, k))
  (at level 10, x name, m at level 100, k at level 200) : py_scope.
Notation "m ';;' k" := (bind m (λ _, k))
  (at level 100, k at level 200, right associativity) : py_scope.

(** [for i in xs: acc = body(i, acc)]. *)
Fixpoint for_in {C A} (xs : list nat) (body : nat → A → Py C A) (acc : A)
    : Py C A :=
  match xs with
  | [] => ret acc
  | i :: xs' => bind (body i acc) (for_in xs' body)
  end.

Definition set_collection {C} (c : C) (w : World C) : World C :=
  mkWorld c (embedding_model w) (SETTINGS w) (stdout w)
          (uuid_calls w) (clock_reads w) (api_calls w).

(** ** memory.py *)

(** The [Document] class at the end of memory.py. *)
Record Document : Type := mkDocument {
  page_content : string;
  metadata : Metadata
}.

(** [Document.__init__]: [self.metadata = metadata or {}]. *)
Definition Document__init__ (page_content : string)
    (metadata : option Metadata) : Document :=
  mkDocument page_content (default ∅ metadata).

Section PippaMemoryTool.
Context {C : Type} `{!Collection C} (host : Host).

Local Open Scope py_scope.

(** *** Calls out of the tool *)

(** [str(uuid.uuid4())]. *)
Definition uuid_uuid4 : Py C string := λ w,
  (Return (uuid4 host (uuid_calls w)),
   mkWorld (collection w) (embedding_model w) (SETTINGS w) (stdout w)
           (S (uuid_calls w)) (clock_reads w) (api_calls w)).

(** [datetime.datetime.now().isoformat()]. *)
Definition datetime_now_isoformat : Py C string := λ w,
  (Return (now_isoformat host (clock_reads w)),
   mkWorld (collection w) (embedding_model w) (SETTINGS w) (stdout w)
           (uuid_calls w) (S (clock_reads w)) (api_calls w)).

(** [print(line)]. *)
Definition print (line : string) : Py C unit := λ w,
  (Return (),
   mkWorld (collection w) (embedding_model w) (SETTINGS w)
           (stdout w ++ [line])%list
           (uuid_calls w) (clock_reads w) (api_calls w)).

(** [get_setting(key, default)] of config.py on the live [SETTINGS]. *)
Definition get_setting (key : string) (default : PyVal) : Py C PyVal := λ w,
  (Return (config.get_setting (SETTINGS w) key default), w).

(** [self.collection.add(ids=[id], embeddings=[e], metadatas=[m],
    documents=[text])]. *)
Definition collection_add (id : string) (e : Embedding) (m : Metadata)
    (text : string) : Py C unit := λ w,
  match coll_add id e m text (collection w) with
  | Return c' => (Return (), set_collection c' w)
  | Raise exn => (Raise exn, w)
  end.

(** [self.collection.query(query_embeddings=[e], n_results=n)]. *)
Definition collection_query (e : Embedding) (n_results : PyVal)
    : Py C QueryResult := λ w,
  (coll_query e n_results (collection w), w).

(** [self.collection.get(limit=limit)]. *)
Definition collection_get (limit : PyVal) : Py C GetResult := λ w,
  (coll_get limit (collection w), w).

(** [self.collection.delete(ids=[id])]. *)
Definition collection_delete (id : string) : Py C unit := λ w,
  match coll_delete id (collection w) with
  | Return c' => (Return (), set_collection c' w)
  | Raise exn => (Raise exn, w)
  end.

(** *** The methods of [PippaMemoryTool] *)

(** [_get_embedding]: one call of the embeddings endpoint with
    [self.embedding_model]. *)
Definition _get_embedding (text : string) : Py C Embedding := λ w,
  (embeddings_create host (api_calls w) (embedding_model w) text,
   mkWorld (collection w) (embedding_model w) (SETTINGS w) (stdout w)
           (uuid_calls w) (clock_reads w) (S (api_calls w))).

(** [remember]: no [try]; the result is a dict. *)
Definition remember (text : string) : Py C (gmap string string) :=
  let! memory_id := uuid_uuid4 in
  let! timestamp := datetime_now_isoformat in
  let! embedding := _get_embedding text in
  collection_add memory_id embedding
    (<["timestamp" := timestamp]>
     (<["type" := "memory"]>
     (<["id" := memory_id]> ∅)))
    text ;;
  ret (<["status" := "success"]>
       (<["message" := "Memory stored"]>
       (<["id" := memory_id]> ∅))).

(** The body of the [try] of [recall], after the embedding. *)
Definition recall_documents (results : QueryResult)
    : Py C (list Document) :=
  match q_ids results with
  | ids0 :: _ =>
      if decide (0 < length ids0)%nat then
        for_in (seq 0 (length ids0))
          (λ i documents,
             let! documents0 := lift (subscript (q_documents results) 0) in
             let! content := lift (subscript documents0 i) in
             let! metadatas0 := lift (subscript (q_metadatas results) 0) in
             let! md := lift (subscript metadatas0 i) in
             ret (documents ++ [Document__init__ content md])%list)
          []
      else ret []
  | [] => ret []
  end.

(** [recall(query, limit=None)]. *)
Definition recall (query : string) (limit : PyVal)
    : Py C (list Document) :=
  let! limit :=
    match limit with
    | VNone => get_setting "similarity_top_k" (VInt 3)
    | _ => ret limit
    end in
  try_except
    (let! query_embedding := _get_embedding query in
     let! results := collection_query query_embedding limit in
     recall_documents results)
    (λ e,
       print ("Error recalling memories: " ++ exc_str e) ;;
       ret []).

(** The body of the [try] of [list_memories], after the [get]. *)
Definition list_documents (results : GetResult) : Py C (list Document) :=
  match g_ids results with
  | _ :: _ =>
      for_in (seq 0 (length (g_ids results)))
        (λ i documents,
           let! content := lift (subscript (g_documents results) i) in
           let! md := lift (subscript (g_metadatas results) i) in
           ret (documents ++ [Document__init__ content md])%list)
        []
  | [] => ret []
  end.

(** [list_memories(limit=10)]. *)
Definition list_memories (limit : PyVal) : Py C (list Document) :=
  try_except
    (let! results := collection_get limit in
     list_documents results)
    (λ e,
       print ("Error listing memories: " ++ exc_str e) ;;
       ret []).

(** [delete_memory(memory_id)]. *)
Definition delete_memory (memory_id : string)
    : Py C (gmap string string) :=
  try_except
    (collection_delete memory_id ;;
     ret (<["status" := "success"]>
          (<["message" := "Memory " ++ memory_id ++ " deleted"]> ∅)))
    (λ e,
       ret (<["status" := "error"]>
            (<["message" := "Failed to delete memory: " ++ exc_str e]> ∅))).

End PippaMemoryTool.

(** [list_memories()] with its default. *)
Definition list_memories_default {C} `{!Collection C} : Py C (list Document) :=
  list_memories (VInt 10).

(** ** The ChromaDB collection

    The collection [pippa_memories] as the tool uses it, kept in memory:
    the rows in insertion order and the dimension the first [add] fixed.
    What the calls do follows the chromadb client: [add] refuses an empty
    embedding and one of another dimension and ignores an id that is
    already there, [delete] ignores an id that is not there, [get] returns
    the first [limit] rows and all of them for a limit that is false as a
    truth value, [query] returns the [n_results] rows nearest to the query
    embedding, nearest first, and refuses an [n_results] that is not a
    positive integer. *)
Module Chroma.

Record Row : Type := mkRow {
  row_id : string;
  row_embedding : Embedding;
  row_metadata : Metadata;
  row_document : string
}.

Record t : Type := mk {
  dimension : option nat;
  rows : list Row
}.

(** The collection [get_or_create_collection] creates when the directory
    is new. *)
Definition empty : t := mk None [].

Definition ids (c : t) : list string := row_id <$> rows c.

(** [isinstance(v, int)]: Python's [bool] is an [int]. *)
Definition as_int (v : PyVal) : option Z :=
  match v with
  | VInt n => Some n
  | VBool b => Some (if b then 1 else 0)
  | _ => None
  end.

Definition InvalidDimension : Exception :=
  mkException "InvalidDimensionException"
              "Embedding dimension does not match collection dimensionality".

Definition EmptyEmbedding : Exception :=
  mkException "ValueError"
              "Expected each embedding in the embeddings to be a non-empty list".

(** What [add] and [query] accept as an embedding: it is not empty, and it
    has the dimension of the collection once a first [add] has fixed
    one. *)
Definition dimension_ok (c : t) (e : Embedding) : bool :=
  match e with
  | [] => false
  | _ :: _ =>
      match dimension c with
      | Some d => bool_decide (length e = d)
      | None => true
      end
  end.

(** The exception for an embedding that is not accepted. *)
Definition refused (e : Embedding) : Exception :=
  match e with
  | [] => EmptyEmbedding
  | _ :: _ => InvalidDimension
  end.

Definition add (id : string) (e : Embedding) (m : Metadata)
    (document : string) (c : t) : outcome t :=
  if dimension_ok c e then
    if bool_decide (id ∈ ids c) then Return c
    else Return (mk (Some (length e))
                    (rows c ++ [mkRow id e m document]))
  else Raise (refused e).

Definition delete (id : string) (c : t) : outcome t :=
  Return (mk (dimension c)
             (filter (λ r, row_id r ≠ id) (rows c))).

Definition get_result (rs : list Row) : GetResult :=
  mkGetResult (row_id <$> rs) (row_document <$> rs)
              ((λ r, Some (row_metadata r)) <$> rs).

(** The rows [get(limit=limit)] selects.  A limit that is false as a truth
    value ([0], [False], the empty string) stands for no limit, as [None]
    does; a negative limit is refused, and so is a limit of 2^63 or more,
    which does not fit the integer of the database; a non-empty string
    cannot be compared with [0]. *)
Definition get_rows (limit : PyVal) (c : t) : outcome (list Row) :=
  match limit with
  | VNone => Return (rows c)
  | VStr s =>
      if bool_decide (s = "") then Return (rows c)
      else Raise (mkException "TypeError"
                    "'<' not supported between instances of 'str' and 'int'")
  | _ =>
      match as_int limit with
      | Some n =>
          if bool_decide (n = 0) then Return (rows c)
          else if bool_decide (n < 0) then
            Raise (mkException "ValueError" "Limit cannot be negative")
          else if bool_decide (2 ^ 63 ≤ n) then
            Raise (mkException "OverflowError"
                     "Python int too large to convert to SQLite INTEGER")
          else Return (take (Z.to_nat n) (rows c))
      | None => Raise (mkException "TypeError" "limit must be an int")
      end
  end.

Definition get (limit : PyVal) (c : t) : outcome GetResult :=
  outcome_map get_result (get_rows limit c).

(** The distance of the space the tool creates the collection with,
    [{"hnsw:space": "cosine"}]. *)
Class Cosine : Type := cosine_distance : Embedding → Embedding → Qc.

Section query.
Context `{!Cosine}.

(** [a] is at least as near to [q] as [b]. *)
Definition nearer (q : Embedding) (a b : Row) : Prop :=
  (cosine_distance q (row_embedding a)
   ≤ cosine_distance q (row_embedding b))%Qc.

Global Instance nearer_dec q : RelDecision (nearer q) :=
  λ a b, decide (cosine_distance q (row_embedding a)
                 ≤ cosine_distance q (row_embedding b))%Qc.

(** The rows nearest first.  The order among rows at the same distance is
    the one of the sort; the index has its own, and no statement below
    depends on it. *)
Definition ranked (q : Embedding) (c : t) : list Row :=
  merge_sort (nearer q) (rows c).

Definition query_result (rs : list Row) : QueryResult :=
  mkQueryResult [row_id <$> rs] [row_document <$> rs]
                [(λ r, Some (row_metadata r)) <$> rs].

(** The rows [query(query_embeddings=[q], n_results=n)] selects. *)
Definition nearest (q : Embedding) (n_results : PyVal) (c : t)
    : outcome (list Row) :=
  match as_int n_results with
  | Some n =>
      if bool_decide (n ≤ 0) then
        Raise (mkException "TypeError"
                 "Number of requested results cannot be negative, or zero")
      else if dimension_ok c q then
        Return (take (Z.to_nat n) (ranked q c))
      else Raise (refused q)
  | None =>
      Raise (mkException "ValueError" "Expected n_results to be an int")
  end.

Definition query (q : Embedding) (n_results : PyVal) (c : t)
    : outcome QueryResult :=
  outcome_map query_result (nearest q n_results c).

Global Instance collection_instance : Collection t :=
  {| coll_add := add;
     coll_query := query;
     coll_get := get;
     coll_delete := delete |}.
End query.

End Chroma.

(** ** Sessions *)

(** One call of the protocol layer or of the admin screens into the tool
    (or into [update_settings] of config.py). *)
Inductive Call : Type :=
  | Remember (text : string)
  | Recall (query : string) (limit : PyVal)
  | ListMemories (limit : PyVal)
  | DeleteMemory (memory_id : string)
  | UpdateSettings (key : string) (value : PyVal).

(** The id a [remember] hands back, when it returns. *)
Definition returned_id (o : outcome (gmap string string)) : option string :=
  match o with
  | Return r => r !! "id"
  | Raise _ => None
  end.

Section sessions.
Context {C : Type} `{!Collection C} (host : Host).

(** One call: the id it issued, if it was a [remember] that returned, and
    the world after it.  An exception of [remember] ends the call, not
    the session. *)
Definition exec (c : Call) (w : World C) : option string * World C :=
  match c with
  | Remember text =>
      let r := remember host text w in (returned_id (fst r), snd r)
  | Recall query limit => (None, snd (recall host query limit w))
  | ListMemories limit => (None, snd (list_memories limit w))
  | DeleteMemory memory_id => (None, snd (delete_memory memory_id w))
  | UpdateSettings key value =>
      (None,
       mkWorld (collection w) (embedding_model w)
               (config.update_settings key value (SETTINGS w)) (stdout w)
               (uuid_calls w) (clock_reads w) (api_calls w))
  end.

(** A session: the ids issued, in order, and the world at its end. *)
Fixpoint run (cs : list Call) (w : World C) : list string * World C :=
  match cs with
  | [] => ([], w)
  | c :: cs' =>
      let '(i, w1) := exec c w in
      let '(rest, w2) := run cs' w1 in
      (from_option (λ x, [x]) [] i ++ rest, w2)%list
  end.
End sessions.

(** Every id in the collection came out of an earlier [uuid.uuid4()]: the
    tool is the only writer of the collection. *)
Definition issued (host : Host) (w : World Chroma.t) : Prop :=
  ∀ id, id ∈ Chroma.ids (collection w) →
        ∃ n, (n < uuid_calls w)%nat ∧ uuid4 host n = id.

(** The document [recall] and [list_memories] build for a row. *)
Definition doc_of_row (r : Chroma.Row) : Document :=
  mkDocument (Chroma.row_document r) (Chroma.row_metadata r).

(** The world after a [print] of a caught exception. *)
Definition logged {C} (prefix : string) (e : Exception) (w : World C)
    : World C :=
  mkWorld (collection w) (embedding_model w) (SETTINGS w)
          (stdout w ++ [(prefix ++ exc_str e)%string])%list
          (uuid_calls w) (clock_reads w) (api_calls w).

(** The world after one call of the embeddings endpoint. *)
Definition called_api {C} (w : World C) : World C :=
  mkWorld (collection w) (embedding_model w) (SETTINGS w) (stdout w)
          (uuid_calls w) (clock_reads w) (S (api_calls w)).

(** The metadata [remember] writes for an id and a timestamp. *)
Definition memory_metadata (memory_id timestamp : string) : Metadata :=
  <["timestamp" := timestamp]>
  (<["type" := "memory"]> (<["id" := memory_id]> ∅)).

(** The dict [remember] returns for an id. *)
Definition stored (memory_id : string) : gmap string string :=
  <["status" := "success"]>
  (<["message" := "Memory stored"]> (<["id" := memory_id]> ∅)).

(** The dicts [delete_memory] returns. *)
Definition deleted (memory_id : string) : gmap string string :=
  <["status" := "success"]>
  (<["message" := "Memory " ++ memory_id ++ " deleted"]> ∅).

Definition delete_failed (e : Exception) : gmap string string :=
  <["status" := "error"]>
  (<["message" := "Failed to delete memory: " ++ exc_str e]> ∅).

(** The world after [remember] has drawn its id, read the clock and
    called the provider. *)
Definition drawn {C} (w : World C) : World C :=
  mkWorld (collection w) (embedding_model w) (SETTINGS w) (stdout w)
          (S (uuid_calls w)) (S (clock_reads w)) (S (api_calls w)).

(** The collection after [add] of a new id. *)
Definition appended (c : Chroma.t) (id : string) (e : Embedding)
    (timestamp text : string) : Chroma.t :=
  Chroma.mk (Some (length e))
    (Chroma.rows c
     ++ [Chroma.mkRow id e (memory_metadata id timestamp) text])%list.

(** The limit [recall] works with: the argument, or the setting when the
    argument is [None]. *)
Definition effective_limit {C} (limit : PyVal) (w : World C) : PyVal :=
  match limit with
  | VNone => config.get_setting (SETTINGS w) "similarity_top_k" (VInt 3)
  | _ => limit
  end.

(** ** A small deployment to run the model on *)
Module Demo.

Fixpoint dot (a b : Embedding) : Qc :=
  match a, b with
  | x :: a', y :: b' => (x * y + dot a' b')%Qc
  | _, _ => 0%Qc
  end.

(** Cosine distance on vectors of length one. *)
Definition distance (q e : Embedding) : Qc := (1 - dot q e)%Qc.

Definition ProviderDown : Exception :=
  mkException "APIConnectionError" "Connection error.".

(** Ids and timestamps count up; the provider is down for the text
    ["boom"] and embeds on two axes otherwise. *)
Definition host : Host :=
  mkHost (λ n, "id-" ++ pretty n) (λ n, "t" ++ pretty n)
    (λ _ _ text,
       if decide (text = "boom") then Raise ProviderDown
       else if decide (text = "The sky is blue") then Return [1%Qc; 0%Qc]
       else Return [0%Qc; 1%Qc]).

Definition chroma : Collection Chroma.t :=
  @Chroma.collection_instance distance.

(** The tool right after [__init__] on a new directory. *)
Definition fresh_world : World Chroma.t :=
  mkWorld Chroma.empty "text-embedding-3-small"
          (config.DEFAULT_SETTINGS "data/pippa_memory_db") [] 0 0 0.

(** After storing two memories. *)
Definition two_memories : World Chroma.t :=
  snd (@run _ chroma host
         [Remember "The sky is blue"; Remember "Grass is green"]
         fresh_world).

End Demo.

(** ** Collections the tool has written *)

(** A row as [remember] writes it: its metadata holds the id of the row, a
    timestamp and the type ["memory"]. *)
Definition remembered (r : Chroma.Row) : Prop :=
  ∃ timestamp,
    Chroma.row_metadata r = memory_metadata (Chroma.row_id r) timestamp.

(** Every embedding of the collection has the dimension of the
    collection. *)
Definition uniform (c : Chroma.t) : Prop :=
  ∀ r, r ∈ Chroma.rows c →
       Chroma.dimension c = Some (length (Chroma.row_embedding r)).

(** The world with another [SETTINGS] dict. *)
Definition with_settings {C} (settings : gmap string PyVal) (w : World C)
    : World C :=
  mkWorld (collection w) (embedding_model w) settings (stdout w)
          (uuid_calls w) (clock_reads w) (api_calls w).

(** ** streamlit_app.py *)

(** [d[key]] on a dict. *)
Definition dict_subscript (d : gmap string string) (key : string)
    : outcome string :=
  match d !! key with
  | Some v => Return v
  | None => Raise (mkException "KeyError" ("'" ++ key ++ "'"))
  end.

(** [d.get(key, default)] on a dict. *)
Definition dict_get (d : gmap string string) (key default : string) : string :=
  match d !! key with
  | Some v => v
  | None => default
  end.

(** The truth value of a [str]. *)
Definition nonempty (s : string) : bool := negb (bool_decide (s = "")).

Module streamlit_app.

(** What a run of the script puts on the page, as far as the pages below
    go. *)
Inductive Element : Type :=
  | st_success (body : string)
  | st_error (body : string)
  | st_warning (body : string).

(** The three keys of [st.session_state] the script sets. *)
Record SessionState : Type := mkSessionState {
  editing_memory : bool;
  edit_memory_id : option string;
  edit_memory_content : string
}.

(** The state after "Reset editing state". *)
Definition not_editing : SessionState := mkSessionState false None "".

(** How a block of the script ends: it falls through to the rest of the
    script, or [st.experimental_rerun()] stops the run. *)
Inductive Flow : Type :=
  | Continues
  | Reruns.

Section pages.
Context {C : Type} `{!Collection C} (host : Host).

Local Open Scope py_scope.

(** The form of the page "Create Memory", with the values of the text area
    and of the submit button. *)
Definition create_memory (submitted : bool) (memory_text : string)
    : Py C (list Element) :=
  if submitted && nonempty memory_text then
    try_except
      (let! result := remember host memory_text in
       let! status := lift (dict_subscript result "status") in
       if decide (status = "success") then
         let! id := lift (dict_subscript result "id") in
         ret [st_success ("Memory saved successfully with ID: " ++ id)]
       else ret [st_error "Failed to save memory"])
      (λ e, ret [st_error ("Error saving memory: " ++ exc_str e)])
  else if submitted then
    ret [st_warning "Please enter memory content before saving"]
  else ret [].

(** The form "Edit Memory" of the page "Browse Memories", shown while
    [editing_memory] holds, with the id [start_edit_memory] has put into
    the session state and the values of the text area and of the two
    buttons.  There is no [try] around it. *)
Definition edit_memory (memory_id : string) (session : SessionState)
    (update_button cancel_button : bool) (edited_content : string)
    : Py C (list Element * SessionState * Flow) :=
  let! updated :=
    if update_button && nonempty edited_content then
      let! delete_result := delete_memory memory_id in
      let! status := lift (dict_subscript delete_result "status") in
      if decide (status = "success") then
        let! result := remember host edited_content in
        let! status := lift (dict_subscript result "status") in
        if decide (status = "success") then
          let! id := lift (dict_subscript result "id") in
          ret ([st_success
                  ("Memory updated successfully with new ID: " ++ id)],
               not_editing, Reruns)
        else ret ([st_error "Failed to update memory"], session, Continues)
      else
        ret ([st_error
                ("Failed to update memory: "
                 ++ dict_get delete_result "message" "Unknown error")],
             session, Continues)
    else ret ([], session, Continues) in
  match updated with
  | (elements, session', Reruns) => ret (elements, session', Reruns)
  | (elements, session', Continues) =>
      if cancel_button then ret (elements, not_editing, Reruns)
      else ret (elements, session', Continues)
  end.

(** The page "Delete Memory", with the values of the text input, of the
    checkbox and of the button. *)
Definition delete_page (delete_button : bool) (memory_id : string)
    (confirm : bool) : Py C (list Element) :=
  if delete_button && nonempty memory_id && confirm then
    try_except
      (let! result := delete_memory memory_id in
       let! status := lift (dict_subscript result "status") in
       if decide (status = "success") then
         ret [st_success ("Memory " ++ memory_id ++ " deleted successfully")]
       else
         ret [st_error ("Failed to delete memory: "
                        ++ dict_get result "message" "Unknown error")])
      (λ e, ret [st_error ("Error deleting memory: " ++ exc_str e)])
  else if delete_button then
    ret ((if nonempty memory_id then []
          else [st_warning "Please enter a memory ID"])
         ++ (if confirm then []
             else [st_warning "Please confirm deletion"]))%list
  else ret [].

End pages.

End streamlit_app.

(** ** server.py *)

Global Instance PyVal_eq_dec : EqDecision PyVal.
Proof. solve_decision. Defined.

Module server.

(** [types.TextContent(type=..., text=...)]. *)
Record TextContent : Type := mkTextContent { type : string; text : string }.

(** The one-element list every branch of the handler returns. *)
Definition reply (body : string) : list TextContent :=
  [mkTextContent "text" body].

(** The line feed of the literals. *)
Definition newline : string := String "010"%char EmptyString.

(** The truth value of an argument. *)
Definition truthy (v : PyVal) : bool :=
  match v with
  | VNone => false
  | VBool b => b
  | VInt n => negb (bool_decide (n = 0))
  | VStr s => nonempty s
  end.

(** [str(v)], as an f-string formats an argument. *)
Definition str (v : PyVal) : string :=
  match v with
  | VNone => "None"
  | VBool true => "True"
  | VBool false => "False"
  | VInt n => pretty n
  | VStr s => s
  end.

(** A [str] is kept as the bytes of its UTF-8 encoding, so one character
    is a byte that is not of the form [10xxxxxx] followed by the bytes of
    that form up to the next character. *)
Definition continuation (c : ascii) : bool :=
  let n := nat_of_ascii c in
  bool_decide (128 ≤ n)%nat && bool_decide (n < 192)%nat.

(** [s[:stop]]: the first [stop] characters of [s], or all of [s] when it
    has fewer. *)
Fixpoint slice_to (stop : nat) (s : string) : string :=
  match s with
  | EmptyString => EmptyString
  | String c rest =>
      if continuation c then String c (slice_to stop rest)
      else
        match stop with
        | O => EmptyString
        | S stop' => String c (slice_to stop' rest)
        end
  end.

(** The loop over [enumerate(memories)] that [recall] and [list] share:
    [result] grows by two lines per memory. *)
Fixpoint render (i : nat) (memories : list Document) (result : string)
    : string :=
  match memories with
  | [] => result
  | memory :: rest =>
      render (S i) rest
        (result
         ++ (pretty (Z.of_nat i + 1) ++ ". " ++ page_content memory
             ++ newline)
         ++ ("   ID: " ++ dict_get (metadata memory) "id" "unknown"
             ++ newline ++ newline))
  end.

(** What the handler works on: the module-level [memory_tool], the lines
    appended to the file at [STARTUP_LOG_PATH], and the messages handed to
    [logger.debug]. *)
Record State (C : Type) : Type := mkState {
  memory_tool : World C;
  startup_log : list string;
  logger_debug : list string
}.
Arguments mkState {C}.
Arguments memory_tool {C}.
Arguments startup_log {C}.
Arguments logger_debug {C}.

Section tool_handler.
Context {C : Type} `{!Collection C} (host : Host).
(** [str(arguments)]: the model does not keep the order of the keys. *)
Context (str_arguments : gmap string PyVal → string).

Local Open Scope py_scope.

(** The first two statements of the handler: one line into the startup
    log, stamped by the clock, and one debug message. *)
Definition enter (name : string) (arguments : gmap string PyVal)
    (s : State C) : State C :=
  mkState
    (snd (datetime_now_isoformat host (memory_tool s)))
    (startup_log s
     ++ [("[" ++ now_isoformat host (clock_reads (memory_tool s))
          ++ "] Tool called: " ++ name ++ newline)%string])%list
    (logger_debug s
     ++ [("Call to tool: " ++ name ++ " with arguments: "
          ++ str_arguments arguments)%string])%list.

(** The branches of the [if] over [name], on the tool.  [None] marks what
    the embedding leaves out: a text, query, id or key that is not a
    string (the tool is written for strings), and the two branches of
    ["config"] that go through the order of [SETTINGS.items()] or through
    the [logging] module. *)
Definition dispatch (name : string) (arguments : gmap string PyVal)
    : option (Py C (list TextContent)) :=
  if decide (name = "remember") then
    let memory_text := default (VStr "") (arguments !! "text") in
    if negb (truthy memory_text) then
      Some (ret (reply "Error: No memory text provided."))
    else
      match memory_text with
      | VStr memory_text =>
          Some (let! result := remember host memory_text in
                ret (reply ("âœ“ I'll remember that: "
                            ++ slice_to 50 memory_text ++ "...")))
      | _ => None
      end
  else if decide (name = "recall") then
    let query := default (VStr "") (arguments !! "query") in
    if negb (truthy query) then
      Some (ret (reply "Error: No query provided."))
    else
      match query with
      | VStr query =>
          Some (let! top_k := get_setting "similarity_top_k" VNone in
                let limit := default top_k (arguments !! "limit") in
                let! memories := recall host query limit in
                match memories with
                | [] => ret (reply "I don't recall anything related to that.")
                | _ =>
                    ret (reply (render 0 memories
                                  ("Here's what I recall:"
                                   ++ newline ++ newline)))
                end)
      | _ => None
      end
  else if decide (name = "list") then
    let limit := default (VInt 10) (arguments !! "limit") in
    Some (let! memories := list_memories limit in
          match memories with
          | [] => ret (reply "I don't have any memories stored yet.")
          | _ =>
              ret (reply (render 0 memories
                            ("Here are my memories:" ++ newline ++ newline)))
          end)
  else if decide (name = "delete") then
    let memory_id := default (VStr "") (arguments !! "id") in
    if negb (truthy memory_id) then
      Some (ret (reply "Error: No memory ID provided."))
    else
      match memory_id with
      | VStr memory_id =>
          Some (let! result := delete_memory memory_id in
                let! status := lift (dict_subscript result "status") in
                if decide (status = "success") then
                  ret (reply "Memory deleted successfully.")
                else
                  let! message := lift (dict_subscript result "message") in
                  ret (reply ("Error: " ++ message)))
      | _ => None
      end
  else if decide (name = "config") then
    let action := default (VStr "") (arguments !! "action") in
    if decide (action = VStr "get") then None
    else if decide (action = VStr "set") then
      let key := default (VStr "") (arguments !! "key") in
      let value := default VNone (arguments !! "value") in
      if negb (truthy key) || bool_decide (value = VNone) then
        Some (ret (reply "Error: Both key and value must be provided."))
      else
        match key with
        | VStr key =>
            if decide (key = "log_level") then None
            else
              Some (λ w,
                (Return (reply ("Updated " ++ key ++ " to " ++ str value)),
                 mkWorld (collection w) (embedding_model w)
                   (config.update_settings key value (SETTINGS w))
                   (stdout w) (uuid_calls w) (clock_reads w) (api_calls w)))
        | _ => None
        end
    else
      Some (ret (reply ("Unknown config action: " ++ str action
                        ++ ". Use 'get' or 'set'.")))
  else
    Some (ret (reply ("Unknown tool: " ++ name))).

(** [tool_handler(name, arguments)]. *)
Definition tool_handler (name : string) (arguments : gmap string PyVal)
    (s : State C) : option (outcome (list TextContent) * State C) :=
  let s1 := enter name arguments s in
  match dispatch name arguments with
  | Some branch =>
      let '(o, w) := branch (memory_tool s1) in
      Some (o, mkState w (startup_log s1) (logger_debug s1))
  | None => None
  end.

End tool_handler.

End server.

(** ** config.py at import *)

Module startup.

Section environment.
(** [os.getenv], [int(val_str)], and [getattr(logging, s.upper())] with
    [None] for an [AttributeError]. *)
Context (getenv : string → option string) (py_int : string → option Z)
        (logging_attr : string → option PyVal) (DB_DIR : string).

(** [os.getenv(name, default)]. *)
Definition getenv_or (name fallback : string) : string :=
  default fallback (getenv name).

(** [_get_env_log_level]. *)
Definition _get_env_log_level : PyVal :=
  match getenv "LOGGING_LEVEL" with
  | Some log_level_str =>
      if nonempty log_level_str then
        match logging_attr log_level_str with
        | Some level => level
        | None => VInt config.logging_INFO
        end
      else VInt config.logging_INFO
  | None => VInt config.logging_INFO
  end.

(** The dict [env_settings], in the order of its keys. *)
Definition env_settings : list (string * PyVal) :=
  [("log_level", _get_env_log_level);
   ("db_path", VStr (getenv_or "DB_PATH" DB_DIR));
   ("embedding_model",
    VStr (getenv_or "EMBEDDING_MODEL" "text-embedding-3-small"));
   ("similarity_top_k",
    config._get_env_int getenv py_int "SIMILARITY_TOP_K" (VInt 3))].

(** [SETTINGS] after the loop over [env_settings.items()]. *)
Definition SETTINGS : gmap string PyVal :=
  fold_left
    (λ settings item,
       match snd item with
       | VNone => settings
       | value => <[fst item := value]> settings
       end)
    env_settings (config.DEFAULT_SETTINGS DB_DIR).

End environment.

End startup.

(** ** A server and an environment to run the model on *)
Module Sample.

(** [str(arguments)] is not looked at. *)
Definition str_arguments (arguments : gmap string PyVal) : string := "{...}".

(** The server with the two memories of [Demo] and empty logs. *)
Definition server_state : server.State Chroma.t :=
  server.mkState Demo.two_memories [] [].

(** An environment that sets [SIMILARITY_TOP_K] to ["7"], and
    [EMBEDDING_MODEL] to the empty string. *)
Definition getenv (name : string) : option string :=
  if decide (name = "SIMILARITY_TOP_K") then Some "7"
  else if decide (name = "EMBEDDING_MODEL") then Some ""
  else None.

(** [int] on the one string the environment holds. *)
Definition py_int (val_str : string) : option Z :=
  if decide (val_str = "7") then Some 7 else None.

(** The letter e with an acute accent: two bytes in UTF-8. *)
Definition e_acute : string := String "195"%char (String "169"%char "").

(** A text of [n] such letters. *)
Fixpoint accented (n : nat) : string :=
  match n with
  | O => EmptyString
  | S n' => (e_acute ++ accented n')%string
  end.

(** [getattr(logging, ...)] on the level names. *)
Definition logging_attr (name : string) : option PyVal :=
  if decide (name = "debug") then Some (VInt 10) else None.

End Sample.

(** * Properties *)

(** ** What each method computes *)

Section tool_facts.
Context {C : Type} `{!Collection C} (host : Host).

(** [remember], case by case. *)
Lemma remember_cases text w :
  remember host text w =
  match embeddings_create host (api_calls w) (embedding_model w) text with
  | Raise exn => (Raise exn, drawn w)
  | Return e =>
      match coll_add (uuid4 host (uuid_calls w)) e
              (memory_metadata (uuid4 host (uuid_calls w))
                               (now_isoformat host (clock_reads w)))
              text (collection w) with
      | Raise exn => (Raise exn, drawn w)
      | Return c' =>
          (Return (stored (uuid4 host (uuid_calls w))),
           set_collection c' (drawn w))
      end
  end.
Proof.
  unfold remember, bind, uuid_uuid4, datetime_now_isoformat,
    _get_embedding, collection_add, ret; simpl.
  destruct (embeddings_create _ _ _ _) as [e|exn]; [|done].
  unfold memory_metadata. by destruct (coll_add _ _ _ _ _).
Qed.

Lemma stored_status memory_id : stored memory_id !! "status" = Some "success".
Proof. done. Qed.

Lemma stored_id memory_id : stored memory_id !! "id" = Some memory_id.
Proof. done. Qed.

(** [delete_memory], case by case. *)
Lemma delete_memory_cases memory_id w :
  delete_memory memory_id w =
  match coll_delete memory_id (collection w) with
  | Return c' =>
      (Return (deleted memory_id), set_collection c' w)
  | Raise exn => (Return (delete_failed exn), w)
  end.
Proof.
  unfold delete_memory, try_except, bind, collection_delete, ret.
  by destruct (coll_delete _ _).
Qed.

(** [recall], case by case. *)
Lemma recall_cases query limit w :
  recall host query limit w =
  match embeddings_create host (api_calls w) (embedding_model w) query with
  | Raise exn =>
      (Return [], logged "Error recalling memories: " exn (called_api w))
  | Return e =>
      match coll_query e (effective_limit limit w) (collection w) with
      | Raise exn =>
          (Return [],
           logged "Error recalling memories: " exn (called_api w))
      | Return results =>
          match recall_documents results (called_api w) with
          | (Return documents, w') => (Return documents, w')
          | (Raise exn, w') =>
              (Return [], logged "Error recalling memories: " exn w')
          end
      end
  end.
Proof.
  unfold recall.
  assert ((match limit with
           | VNone => get_setting "similarity_top_k" (VInt 3)
           | _ => ret limit
           end : Py C PyVal) w = (Return (effective_limit limit w), w))
    as Hlimit by by destruct limit.
  unfold bind at 1. rewrite Hlimit.
  unfold try_except, bind, _get_embedding, collection_query, print, ret.
  fold (called_api w).
  destruct (embeddings_create _ _ _ _) as [e|exn]; [|done].
  destruct (coll_query _ _ _) as [results|exn]; [|done].
  by destruct (recall_documents results (called_api w)) as [[?|?] ?].
Qed.

(** [list_memories], case by case. *)
Lemma list_memories_cases limit w :
  list_memories limit w =
  match coll_get limit (collection w) with
  | Raise exn => (Return [], logged "Error listing memories: " exn w)
  | Return results =>
      match list_documents results w with
      | (Return documents, w') => (Return documents, w')
      | (Raise exn, w') =>
          (Return [], logged "Error listing memories: " exn w')
      end
  end.
Proof.
  unfold list_memories, try_except, bind, collection_get, print, ret.
  destruct (coll_get _ _) as [results|exn]; [|done].
  by destruct (list_documents results w) as [[?|?] ?].
Qed.

End tool_facts.

(** ** What the methods leave alone *)

Section frames.
Context {C : Type} `{!Collection C} (host : Host).

Lemma for_in_world {A} (body : nat → A → Py C A) xs acc w :
  (∀ i a w0, snd (body i a w0) = w0) →
  snd (for_in xs body acc w) = w.
Proof.
  intros Hbody. revert acc w.
  induction xs as [|i xs IH]; intros acc w; [done|].
  simpl. unfold bind. specialize (Hbody i acc w).
  destruct (body i acc w) as [[a|exn] w1]; simpl in *; subst; [apply IH|done].
Qed.

Lemma subscript_world {A B} (l : list A) i (k : A → Py C B) w :
  (∀ a w0, snd (k a w0) = w0) →
  snd (bind (lift (subscript l i)) k w) = w.
Proof.
  intros Hk. unfold bind, lift. by destruct (subscript l i); simpl.
Qed.

Lemma recall_documents_world results (w : World C) :
  snd (recall_documents results w) = w.
Proof.
  unfold recall_documents. destruct (q_ids results) as [|ids0 ?]; [done|].
  case_decide; [|done]. apply for_in_world. intros i a w0.
  repeat (apply subscript_world; intros). done.
Qed.

Lemma list_documents_world results (w : World C) :
  snd (list_documents results w) = w.
Proof.
  unfold list_documents. destruct (g_ids results) as [|? ?]; [done|].
  apply for_in_world. intros i a w0.
  repeat (apply subscript_world; intros). done.
Qed.

(** [recall] changes nothing but the console and the count of provider
    calls. *)
Lemma recall_frame query limit w :
  let w' := snd (recall host query limit w) in
  collection w' = collection w ∧ uuid_calls w' = uuid_calls w
  ∧ SETTINGS w' = SETTINGS w.
Proof.
  rewrite recall_cases.
  destruct (embeddings_create _ _ _ _) as [e|exn]; [|done].
  destruct (coll_query _ _ _) as [results|exn]; [|done].
  pose proof (recall_documents_world results (called_api w)) as Hw.
  destruct (recall_documents results _) as [[?|?] w1]; simpl in *;
    by subst.
Qed.

(** [list_memories] changes nothing but the console. *)
Lemma list_memories_frame limit w :
  let w' := snd (list_memories limit w) in
  collection w' = collection w ∧ uuid_calls w' = uuid_calls w
  ∧ SETTINGS w' = SETTINGS w.
Proof.
  rewrite list_memories_cases.
  destruct (coll_get _ _) as [results|exn]; [|done].
  pose proof (list_documents_world results w) as Hw.
  destruct (list_documents results w) as [[?|?] w1]; simpl in *; by subst.
Qed.

Lemma delete_memory_uuid_calls memory_id w :
  uuid_calls (snd (delete_memory memory_id w)) = uuid_calls w.
Proof.
  rewrite delete_memory_cases. by destruct (coll_delete _ _).
Qed.

Lemma remember_uuid_calls text w :
  uuid_calls (snd (remember host text w)) = S (uuid_calls w).
Proof.
  rewrite remember_cases.
  destruct (embeddings_create _ _ _ _) as [e|exn]; [|done].
  by destruct (coll_add _ _ _ _ _).
Qed.

(** The id a [remember] returns is the one it drew. *)
Lemma remember_returned_id text w id :
  returned_id (fst (remember host text w)) = Some id →
  id = uuid4 host (uuid_calls w).
Proof.
  rewrite remember_cases.
  destruct (embeddings_create _ _ _ _) as [e|exn]; [|done].
  destruct (coll_add _ _ _ _ _); [|done].
  simpl. rewrite stored_id. congruence.
Qed.

Lemma exec_uuid_calls c w :
  (uuid_calls w ≤ uuid_calls (snd (exec host c w)))%nat.
Proof.
  destruct c; simpl.
  - rewrite remember_uuid_calls. lia.
  - by destruct (recall_frame query limit w) as (_ & -> & _).
  - by destruct (list_memories_frame limit w) as (_ & -> & _).
  - by rewrite delete_memory_uuid_calls.
  - done.
Qed.

Lemma exec_issued c w id :
  fst (exec host c w) = Some id →
  id = uuid4 host (uuid_calls w)
  ∧ (uuid_calls w < uuid_calls (snd (exec host c w)))%nat.
Proof.
  destruct c; simpl; try done.
  intros Hid. split; [by apply remember_returned_id in Hid|].
  rewrite remember_uuid_calls. lia.
Qed.

(** The ids of a session are draws of [uuid4] at increasing positions,
    none before the session began. *)
Lemma run_issued cs w :
  ∃ ns : list nat,
    fst (run host cs w) = uuid4 host <$> ns
    ∧ StronglySorted lt ns
    ∧ Forall (λ n, uuid_calls w ≤ n < uuid_calls (snd (run host cs w)))%nat
             ns
    ∧ (uuid_calls w ≤ uuid_calls (snd (run host cs w)))%nat.
Proof.
  revert w. induction cs as [|c cs IH]; intros w.
  { exists []. simpl. repeat split; [constructor|constructor|lia]. }
  simpl. pose proof (exec_uuid_calls c w) as Hle.
  pose proof (exec_issued c w) as Hid.
  destruct (exec host c w) as [i w1]; simpl in *.
  destruct (IH w1) as (ns & Hns & Hsorted & Hrange & Hle1).
  destruct (run host cs w1) as [rest w2]; simpl in *. subst rest.
  destruct i as [id|]; simpl.
  - destruct (Hid id eq_refl) as [-> Hlt].
    exists (uuid_calls w :: ns). repeat split; [| |lia].
    + constructor; [done|].
      eapply Forall_impl; [exact Hrange|]. simpl. lia.
    + constructor; [lia|].
      eapply Forall_impl; [exact Hrange|]. simpl. lia.
  - exists ns. repeat split; [done| |lia].
    eapply Forall_impl; [exact Hrange|]. simpl. lia.
Qed.

End frames.

(** ** The tool on the ChromaDB collection *)

Section chroma_facts.
Context `{!Chroma.Cosine} (host : Host).

(** A loop that appends one document per row collects the documents of the
    rows. *)
Lemma for_in_collect (body : nat → list Document → Py Chroma.t (list Document))
    (rs : list Chroma.Row) :
  (∀ i r acc w, rs !! i = Some r →
                body i acc w = (Return (acc ++ [doc_of_row r])%list, w)) →
  ∀ k n acc w, (n + k = length rs)%nat →
    for_in (seq n k) body acc w
    = (Return (acc ++ (doc_of_row <$> drop n rs))%list, w).
Proof.
  intros Hbody. induction k as [|k IH]; intros n acc w Hlen.
  - simpl. rewrite drop_ge by lia. by rewrite app_nil_r.
  - simpl. unfold bind.
    destruct (lookup_lt_is_Some_2 rs n) as [r Hr]; [lia|].
    rewrite (Hbody n r acc w Hr), IH by lia.
    rewrite (drop_S rs r n Hr), fmap_cons, <-app_assoc. done.
Qed.

Lemma list_documents_rows rs (w : World Chroma.t) :
  list_documents (Chroma.get_result rs) w = (Return (doc_of_row <$> rs), w).
Proof.
  unfold list_documents.
  destruct (g_ids (Chroma.get_result rs)) eqn:Hids.
  { destruct rs; [done|discriminate]. }
  rewrite <-Hids. simpl g_ids. rewrite length_fmap.
  rewrite (for_in_collect _ rs); [by rewrite drop_0| |lia].
  intros i r acc w0 Hr. unfold bind, lift, subscript, ret. simpl.
  by rewrite !list_lookup_fmap, Hr.
Qed.

Lemma recall_documents_rows rs (w : World Chroma.t) :
  recall_documents (Chroma.query_result rs) w
  = (Return (doc_of_row <$> rs), w).
Proof.
  unfold recall_documents, Chroma.query_result. cbn [q_ids].
  rewrite length_fmap.
  case_decide as Hlen; [|by destruct rs; [|simpl in Hlen; lia]].
  rewrite (for_in_collect _ rs); [by rewrite drop_0| |lia].
  intros i r acc w0 Hr. unfold bind, lift, subscript, ret. simpl.
  by rewrite !list_lookup_fmap, Hr.
Qed.

(** [list_memories] on the collection: the documents of the rows [get]
    selects, or nothing and a line on the console. *)
Lemma list_memories_chroma limit w :
  list_memories limit w =
  match Chroma.get_rows limit (collection w) with
  | Return rs => (Return (doc_of_row <$> rs), w)
  | Raise exn => (Return [], logged "Error listing memories: " exn w)
  end.
Proof.
  rewrite list_memories_cases. simpl coll_get. unfold Chroma.get.
  destruct (Chroma.get_rows _ _) as [rs|exn]; [|done].
  simpl. by rewrite list_documents_rows.
Qed.

(** [recall] on the collection: the documents of the rows [query] selects,
    or nothing and a line on the console. *)
Lemma recall_chroma query limit w :
  recall host query limit w =
  match embeddings_create host (api_calls w) (embedding_model w) query with
  | Raise exn =>
      (Return [], logged "Error recalling memories: " exn (called_api w))
  | Return q =>
      match Chroma.nearest q (effective_limit limit w)
              (collection w) with
      | Return rs => (Return (doc_of_row <$> rs), called_api w)
      | Raise exn =>
          (Return [], logged "Error recalling memories: " exn (called_api w))
      end
  end.
Proof.
  rewrite recall_cases.
  destruct (embeddings_create _ _ _ _) as [q|exn]; [|done].
  simpl coll_query. unfold Chroma.query.
  destruct (Chroma.nearest _ _ _) as [rs|exn]; [|done].
  simpl. by rewrite recall_documents_rows.
Qed.

End chroma_facts.

(** ** Claims that hold on any collection *)

Section any_collection.
Context {C : Type} `{!Collection C} (host : Host).

(** C2: when the embedding call inside [remember] raises, [remember] raises
    that same exception to its caller, the collection is as it was before
    the call, and nothing is printed in place of the exception. *)
Theorem remember_embedding_failure text w exn :
  embeddings_create host (api_calls w) (embedding_model w) text = Raise exn →
  fst (remember host text w) = Raise exn
  ∧ collection (snd (remember host text w)) = collection w
  ∧ stdout (snd (remember host text w)) = stdout w.
Proof.
  intros Hfail. rewrite remember_cases, Hfail. done.
Qed.

(** C10: a result that [remember] returns always has status ["success"],
    and [remember] returns only when both the embedding call and the write
    to the collection returned; when either raises, [remember] raises that
    exception instead of returning a result with an error status. *)
Theorem remember_never_reports_error text w :
  let embedding :=
    embeddings_create host (api_calls w) (embedding_model w) text in
  let write e :=
    coll_add (uuid4 host (uuid_calls w)) e
      (memory_metadata (uuid4 host (uuid_calls w))
                       (now_isoformat host (clock_reads w)))
      text (collection w) in
  match fst (remember host text w) with
  | Return r =>
      r !! "status" = Some "success"
      ∧ ∃ e, embedding = Return e ∧ is_return (write e) = true
  | Raise exn =>
      embedding = Raise exn
      ∨ ∃ e, embedding = Return e ∧ write e = Raise exn
  end.
Proof.
  intros embedding write. rewrite remember_cases.
  fold embedding. destruct embedding as [e|exn] eqn:He; simpl; [|by left].
  fold (write e). destruct (write e) as [c'|exn] eqn:Hw; simpl.
  - split; [done|]. exists e. by rewrite Hw.
  - right. by exists e.
Qed.

(** C4: when the embedding call inside [recall] raises, [recall] returns
    the empty list and prints the exception; whatever raises inside the
    [try] of [recall] or of [list_memories] ends the same way, so neither
    method ever raises. *)
Theorem read_paths_degrade query limit w :
  (∀ exn,
     embeddings_create host (api_calls w) (embedding_model w) query
     = Raise exn →
     recall host query limit w
     = (Return [], logged "Error recalling memories: " exn (called_api w)))
  ∧ (∀ exn,
       coll_get limit (collection w) = Raise exn →
       list_memories limit w
       = (Return [], logged "Error listing memories: " exn w))
  ∧ (∀ exn w',
       (let! results := collection_get limit in list_documents results)%py w
       = (Raise exn, w') →
       list_memories limit w
       = (Return [], logged "Error listing memories: " exn w'))
  ∧ is_return (fst (recall host query limit w)) = true
  ∧ is_return (fst (list_memories limit w)) = true.
Proof.
  split; [|split; [|split; [|split]]].
  - intros exn Hfail. by rewrite recall_cases, Hfail.
  - intros exn Hfail. by rewrite list_memories_cases, Hfail.
  - intros exn w' Hbody. unfold list_memories, try_except.
    by rewrite Hbody.
  - rewrite recall_cases.
    destruct (embeddings_create _ _ _ _) as [e|exn]; [|done].
    destruct (coll_query _ _ _) as [results|exn]; [|done].
    by destruct (recall_documents results _) as [[?|?] ?].
  - rewrite list_memories_cases.
    destruct (coll_get _ _) as [results|exn]; [|done].
    by destruct (list_documents results w) as [[?|?] ?].
Qed.

(** C6: when [uuid4] never repeats, the ids issued by the successful
    [remember] calls of a session are pairwise distinct, whatever calls
    (deletions included) lie between them, and distinct from every id drawn
    before the session; two [remember] calls in a row with the same text
    return different ids. *)
Theorem issued_ids_unique cs w :
  Inj (=) (=) (uuid4 host) →
  NoDup (fst (run host cs w))
  ∧ (∀ id n, id ∈ fst (run host cs w) → (n < uuid_calls w)%nat →
             uuid4 host n ≠ id)
  ∧ (∀ text r1 w1 r2 w2,
       remember host text w = (Return r1, w1) →
       remember host text w1 = (Return r2, w2) →
       ∃ id1 id2, r1 !! "id" = Some id1 ∧ r2 !! "id" = Some id2
                  ∧ id1 ≠ id2).
Proof.
  intros Hinj.
  destruct (run_issued host cs w) as (ns & -> & Hsorted & Hrange & _).
  split; [|split].
  - apply (NoDup_fmap_2 _).
    clear Hrange. induction Hsorted as [|n ns _ IH Hall]; [constructor|].
    constructor; [|done]. intros Hin.
    rewrite Forall_forall in Hall. specialize (Hall n Hin). lia.
  - intros id n [m [-> Hm]]%list_elem_of_fmap Hn Heq.
    apply Hinj in Heq. subst n.
    rewrite Forall_forall in Hrange. specialize (Hrange m Hm). lia.
  - intros text r1 w1 r2 w2 H1 H2.
    pose proof (remember_uuid_calls host text w) as Hcalls.
    rewrite H1 in Hcalls. simpl in Hcalls.
    rewrite remember_cases in H1, H2.
    destruct (embeddings_create host (api_calls w) _ _); [|done].
    destruct (coll_add _ _ _ _ (collection w)); [|done].
    destruct (embeddings_create host (api_calls w1) _ _); [|done].
    destruct (coll_add _ _ _ _ (collection w1)); [|done].
    simplify_eq.
    eexists _, _. rewrite !stored_id. repeat split; try done.
    intros Heq%Hinj. simpl in *. lia.
Qed.

End any_collection.

(** ** Claims on the ChromaDB collection *)

Section on_chroma.
Context `{!Chroma.Cosine} (host : Host).

Local Instance nearer_total q : Total (Chroma.nearer q).
Proof. intros a b. unfold Chroma.nearer. apply Qc_le_total. Qed.

Local Instance nearer_trans q : Transitive (Chroma.nearer q).
Proof. intros a b c. unfold Chroma.nearer. apply Qcle_trans. Qed.

(** The ranking of the collection for a query: all the rows, nearest
    first. *)
Lemma ranked_sorted q c :
  Chroma.ranked q c ≡ₚ Chroma.rows c
  ∧ StronglySorted (Chroma.nearer q)
                   (Chroma.ranked q c).
Proof.
  split; [apply merge_sort_Permutation|].
  apply (StronglySorted_merge_sort _).
Qed.

Lemma nearest_rows q limit c rs :
  Chroma.nearest q limit c = Return rs →
  ∃ n, Chroma.as_int limit = Some n ∧ 0 < n
       ∧ rs = take (Z.to_nat n) (Chroma.ranked q c).
Proof.
  unfold Chroma.nearest. destruct (Chroma.as_int limit) as [n|]; [|done].
  case_bool_decide; [done|]. destruct (Chroma.dimension_ok c q); [|done].
  intros [= <-]. exists n. split; [done|]. split; [lia|done].
Qed.

(** C8: on a collection without rows, [recall] and [list_memories] both
    return the empty list, for every query and every limit. *)
Theorem empty_store_reads query limit limit' w :
  Chroma.rows (collection w) = [] →
  fst (recall host query limit w) = Return []
  ∧ fst (list_memories limit' w) = Return [].
Proof.
  intros Hempty. split.
  - rewrite recall_chroma.
    destruct (embeddings_create _ _ _ _) as [q|exn]; [|done].
    destruct (Chroma.nearest _ _ _) as [rs|exn] eqn:Hnear; [|done].
    apply nearest_rows in Hnear as (n & _ & _ & ->).
    unfold Chroma.ranked. rewrite Hempty. by destruct (Z.to_nat n).
  - rewrite list_memories_chroma. unfold Chroma.get_rows. rewrite Hempty.
    destruct limit' as [|b|n|s]; simpl; try done;
      repeat case_bool_decide; by rewrite ?take_nil.
Qed.

(** C9: when the [SETTINGS] dict holds the integer [k] under
    ["similarity_top_k"] at the time of the call, [recall] without a limit
    is [recall] with the limit [k] and returns at most [k] documents; when
    the dict has no such key it is [recall] with the limit 3 and returns
    at most 3.  The value is 3 in [DEFAULT_SETTINGS] and 3 at start when
    the environment does not set it. *)
Theorem recall_default_bounded query w k :
  SETTINGS w !! "similarity_top_k" = Some (VInt k) →
  0 ≤ k →
  recall host query VNone w = recall host query (VInt k) w
  ∧ (∃ documents,
       fst (recall host query VNone w) = Return documents
       ∧ Z.of_nat (length documents) ≤ k)
  ∧ (∀ w',
       SETTINGS w' !! "similarity_top_k" = None →
       recall host query VNone w' = recall host query (VInt 3) w'
       ∧ ∃ documents,
           fst (recall host query VNone w') = Return documents
           ∧ Z.of_nat (length documents) ≤ 3)
  ∧ (∀ DB_DIR, config.DEFAULT_SETTINGS DB_DIR !! "similarity_top_k"
               = Some (VInt 3))
  ∧ (∀ py_int, config._get_env_int (λ _, None) py_int "SIMILARITY_TOP_K"
                 (VInt 3) = VInt 3).
Proof.
  intros Hset Hk.
  assert (∀ w' n, 0 ≤ n →
            ∃ documents,
              fst (recall host query (VInt n) w') = Return documents
              ∧ Z.of_nat (length documents) ≤ n) as Hbound.
  { intros w' n Hn. rewrite recall_chroma. simpl effective_limit.
    destruct (embeddings_create _ _ _ _) as [q|exn];
      [|exists []; split; [done|simpl; lia]].
    destruct (Chroma.nearest _ _ _) as [rs|exn] eqn:Hnear;
      [|exists []; split; [done|simpl; lia]].
    apply nearest_rows in Hnear as (m & [= <-] & _ & ->).
    eexists. split; [done|]. rewrite length_fmap, length_take. lia. }
  assert (recall host query VNone w = recall host query (VInt k) w) as Heq.
  { rewrite !recall_cases. unfold effective_limit, config.get_setting.
    by rewrite Hset. }
  split; [done|]. split; [rewrite Heq; by apply Hbound|].
  split; [|done].
  intros w' Hnone.
  assert (recall host query VNone w' = recall host query (VInt 3) w')
    as Heq'.
  { rewrite !recall_cases. unfold effective_limit, config.get_setting.
    by rewrite Hnone. }
  split; [done|]. rewrite Heq'. by apply Hbound.
Qed.

(** *** Writes *)

(** A [remember] that returns, on the collection. *)
Lemma remember_chroma text w r w1 :
  remember host text w = (Return r, w1) →
  let id := uuid4 host (uuid_calls w) in
  ∃ e,
    embeddings_create host (api_calls w) (embedding_model w) text = Return e
    ∧ Chroma.dimension_ok (collection w) e = true
    ∧ r = stored id
    ∧ w1 = set_collection
             (if bool_decide (id ∈ Chroma.ids (collection w))
              then collection w
              else appended (collection w) id e
                     (now_isoformat host (clock_reads w)) text)
             (drawn w).
Proof.
  rewrite remember_cases. intros Hr id.
  destruct (embeddings_create _ _ _ _) as [e|exn]; [|done].
  exists e. split; [done|]. revert Hr. simpl coll_add. unfold Chroma.add.
  destruct (Chroma.dimension_ok _ _); [|done].
  fold id. case_bool_decide; intros [= <- <-]; done.
Qed.

(** An id [uuid4] has not drawn yet is not in the collection. *)
Lemma issued_fresh w :
  Inj (=) (=) (uuid4 host) → issued host w →
  uuid4 host (uuid_calls w) ∉ Chroma.ids (collection w).
Proof.
  intros Hinj Hissued Hin. destruct (Hissued _ Hin) as (n & Hn & Heq).
  apply Hinj in Heq. lia.
Qed.

Lemma ids_filter id c :
  Chroma.ids (Chroma.mk (Chroma.dimension c)
                (filter (λ r, Chroma.row_id r ≠ id) (Chroma.rows c)))
  ⊆ Chroma.ids c.
Proof.
  unfold Chroma.ids. simpl. intros x [r [-> Hr]]%list_elem_of_fmap.
  apply list_elem_of_filter in Hr as [_ Hr]. apply list_elem_of_fmap. eauto.
Qed.

(** Every call keeps the ids of the collection among the ids drawn. *)
Lemma exec_keeps_issued c w :
  issued host w → issued host (snd (exec host c w)).
Proof.
  intros Hissued.
  destruct c as [text|query limit|limit|memory_id|key value];
    unfold exec; cbv zeta; cbn [snd].
  - destruct (remember host text w) as [[r|exn] w1] eqn:Hr; cbn [snd].
    + apply remember_chroma in Hr as (e & _ & _ & _ & ->).
      intros id Hid. unfold issued in Hissued. simpl in *.
      case_bool_decide as Hold.
      * destruct (Hissued id Hid) as (n & Hn & Heq). exists n. split; [lia|done].
      * unfold Chroma.ids, appended in Hid. simpl in Hid.
        rewrite fmap_app in Hid. apply elem_of_app in Hid as [Hid|Hid].
        -- destruct (Hissued id Hid) as (n & Hn & Heq).
           exists n. split; [lia|done].
        -- apply list_elem_of_singleton in Hid. simpl in Hid. subst id.
           exists (uuid_calls w). split; [lia|done].
    + assert (collection w1 = collection w ∧ uuid_calls w1 = S (uuid_calls w))
        as [Hc Hu].
      { rewrite remember_cases in Hr.
        destruct (embeddings_create _ _ _ _) as [e|?];
          [|by injection Hr as <- <-].
        destruct (coll_add _ _ _ _ _); [done|]. by injection Hr as <- <-. }
      intros id Hid. rewrite Hc in Hid.
      destruct (Hissued id Hid) as (n & Hn & Heq).
      exists n. rewrite Hu. split; [lia|done].
  - destruct (recall_frame host query limit w) as (Hc & Hu & _).
    intros id Hid. rewrite Hc in Hid. rewrite Hu. by apply Hissued.
  - destruct (list_memories_frame limit w) as (Hc & Hu & _).
    intros id Hid. rewrite Hc in Hid. rewrite Hu. by apply Hissued.
  - rewrite delete_memory_cases. simpl coll_delete.
    unfold Chroma.delete. intros id Hid. simpl in *.
    apply ids_filter in Hid. by apply Hissued.
  - intros id Hid. by apply Hissued.
Qed.

Lemma run_keeps_issued cs w :
  issued host w → issued host (snd (run host cs w)).
Proof.
  revert w. induction cs as [|c cs IH]; intros w Hw; [done|].
  simpl. pose proof (exec_keeps_issued c w Hw) as Hw1.
  destruct (exec host c w) as [i w1]. simpl in Hw1.
  specialize (IH w1 Hw1). by destruct (run host cs w1).
Qed.

(** The row a returning [remember] appends when its id is new. *)
Lemma remember_appends text w r w1 :
  Inj (=) (=) (uuid4 host) → issued host w →
  remember host text w = (Return r, w1) →
  ∃ e,
    embeddings_create host (api_calls w) (embedding_model w) text = Return e
    ∧ r = stored (uuid4 host (uuid_calls w))
    ∧ collection w1
      = appended (collection w) (uuid4 host (uuid_calls w)) e
                 (now_isoformat host (clock_reads w)) text.
Proof.
  intros Hinj Hissued Hr. pose proof (issued_fresh w Hinj Hissued) as Hfresh.
  apply remember_chroma in Hr as (e & He & _ & -> & ->).
  exists e. rewrite bool_decide_eq_false_2 by done. done.
Qed.

(** C7: [remember], when it returns, appends exactly one row and leaves
    every row that was there as it was (same id, text, embedding and
    metadata, same order), and when it raises leaves the collection as it
    was; [delete_memory(id)] removes the rows with that id and keeps all
    others as they were; [recall] and [list_memories] do not touch the
    collection.  The statement is for a collection this tool alone has
    written and a [uuid4] that never repeats. *)
Theorem writes_frame w :
  Inj (=) (=) (uuid4 host) → issued host w →
  (∀ text r w1,
     remember host text w = (Return r, w1) →
     ∃ row,
       Chroma.rows (collection w1) = (Chroma.rows (collection w) ++ [row])%list
       ∧ r !! "id" = Some (Chroma.row_id row)
       ∧ Chroma.row_document row = text
       ∧ length (Chroma.rows (collection w1))
         = S (length (Chroma.rows (collection w))))
  ∧ (∀ text exn w1,
       remember host text w = (Raise exn, w1) →
       collection w1 = collection w)
  ∧ (∀ memory_id,
       Chroma.rows (collection (snd (delete_memory memory_id w)))
       = filter (λ r, Chroma.row_id r ≠ memory_id)
                (Chroma.rows (collection w)))
  ∧ (∀ query limit, collection (snd (recall host query limit w))
                    = collection w)
  ∧ (∀ limit, collection (snd (list_memories limit w)) = collection w).
Proof.
  intros Hinj Hissued. split; [|split; [|split; [|split]]].
  - intros text r w1 Hr.
    destruct (remember_appends text w r w1 Hinj Hissued Hr)
      as (e & _ & -> & ->).
    eexists. split; [reflexivity|]. split; [by rewrite stored_id|].
    split; [done|]. simpl. rewrite length_app. simpl. lia.
  - intros text exn w1 Hr. rewrite remember_cases in Hr.
    destruct (embeddings_create _ _ _ _) as [e|?];
      [|by injection Hr as <- <-].
    destruct (coll_add _ _ _ _ _); [done|]. by injection Hr as <- <-.
  - intros memory_id. by rewrite delete_memory_cases.
  - intros query limit. by destruct (recall_frame host query limit w).
  - intros limit. by destruct (list_memories_frame limit w).
Qed.

(** A row stays in the collection, as it is, until a [delete_memory] of
    its id. *)
Lemma exec_keeps_row c w row :
  row ∈ Chroma.rows (collection w) →
  c ≠ DeleteMemory (Chroma.row_id row) →
  row ∈ Chroma.rows (collection (snd (exec host c w))).
Proof.
  intros Hrow Hc.
  destruct c as [text|query limit|limit|memory_id|key value];
    unfold exec; cbv zeta; cbn [snd].
  - destruct (remember host text w) as [[r|exn] w1] eqn:Hr; cbn [snd].
    + apply remember_chroma in Hr as (e & _ & _ & _ & ->). simpl.
      case_bool_decide; [done|]. simpl. apply elem_of_app. by left.
    + rewrite remember_cases in Hr.
      destruct (embeddings_create _ _ _ _) as [e|?];
        [|by injection Hr as <- <-].
      destruct (coll_add _ _ _ _ _); [done|]. by injection Hr as <- <-.
  - by destruct (recall_frame host query limit w) as (-> & _).
  - by destruct (list_memories_frame limit w) as (-> & _).
  - rewrite delete_memory_cases. simpl.
    apply list_elem_of_filter. split; [congruence|done].
  - done.
Qed.

Lemma run_keeps_row cs w row :
  row ∈ Chroma.rows (collection w) →
  DeleteMemory (Chroma.row_id row) ∉ cs →
  row ∈ Chroma.rows (collection (snd (run host cs w))).
Proof.
  revert w. induction cs as [|c cs IH]; intros w Hrow Hcs; [done|].
  apply not_elem_of_cons in Hcs as [Hc Hcs].
  simpl. pose proof (exec_keeps_row c w row Hrow (not_eq_sym Hc)) as Hrow1.
  destruct (exec host c w) as [i w1]. simpl in Hrow1.
  specialize (IH w1 Hrow1 Hcs). by destruct (run host cs w1).
Qed.

(** The documents of the reads when a row is in the collection and the
    limit covers the collection. *)
Lemma reads_find_row row w n :
  row ∈ Chroma.rows (collection w) →
  Z.of_nat (length (Chroma.rows (collection w))) ≤ n →
  n < 2 ^ 63 →
  (∃ documents,
     fst (list_memories (VInt n) w) = Return documents
     ∧ doc_of_row row ∈ documents)
  ∧ (∀ query q,
       embeddings_create host (api_calls w) (embedding_model w) query
       = Return q →
       Chroma.dimension_ok (collection w) q = true →
       ∃ documents,
         fst (recall host query (VInt n) w) = Return documents
         ∧ doc_of_row row ∈ documents).
Proof.
  intros Hin Hn Hbound.
  assert (0 < n) as Hpos.
  { destruct (Chroma.rows (collection w)); [by apply elem_of_nil in Hin|].
    simpl in Hn. lia. }
  split.
  - rewrite list_memories_chroma.
    unfold Chroma.get_rows. cbn [Chroma.as_int].
    rewrite !bool_decide_eq_false_2 by lia.
    rewrite take_ge by lia.
    eexists. split; [done|]. by apply list_elem_of_fmap_2.
  - intros query q Hq Hdim. rewrite recall_chroma, Hq.
    unfold Chroma.nearest. simpl.
    rewrite bool_decide_eq_false_2 by lia. rewrite Hdim.
    destruct (ranked_sorted q (collection w)) as [Hperm _].
    rewrite take_ge by (rewrite Hperm; lia).
    eexists. split; [done|]. apply list_elem_of_fmap_2. by rewrite Hperm.
Qed.

(** C5: after [remember(text)] has returned with an id, and after any
    further calls that do not delete that id, [list_memories] with a limit
    that covers the collection and fits 63 bits returns a document whose
    [page_content] is [text] and whose id is the one [remember] returned,
    and so does [recall] with such a limit whenever the provider answers
    the query with a non-empty embedding of the dimension of the
    collection.  The statement is for a collection this tool alone has
    written and a [uuid4] that never repeats. *)
Theorem round_trip text w r w1 id cs n :
  Inj (=) (=) (uuid4 host) → issued host w →
  remember host text w = (Return r, w1) →
  r !! "id" = Some id →
  DeleteMemory id ∉ cs →
  let w2 := snd (run host cs w1) in
  Z.of_nat (length (Chroma.rows (collection w2))) ≤ n →
  n < 2 ^ 63 →
  (∃ documents d,
     fst (list_memories (VInt n) w2) = Return documents
     ∧ d ∈ documents ∧ page_content d = text
     ∧ metadata d !! "id" = Some id)
  ∧ (∀ query q,
       embeddings_create host (api_calls w2) (embedding_model w2) query
       = Return q →
       Chroma.dimension_ok (collection w2) q = true →
       ∃ documents d,
         fst (recall host query (VInt n) w2) = Return documents
         ∧ d ∈ documents ∧ page_content d = text
         ∧ metadata d !! "id" = Some id).
Proof.
  intros Hinj Hissued Hr Hid Hcs w2 Hn Hbound.
  destruct (remember_appends text w r w1 Hinj Hissued Hr)
    as (e & _ & -> & Hc).
  rewrite stored_id in Hid. injection Hid as <-.
  set (row := Chroma.mkRow (uuid4 host (uuid_calls w)) e
                (memory_metadata (uuid4 host (uuid_calls w))
                                 (now_isoformat host (clock_reads w)))
                text).
  assert (row ∈ Chroma.rows (collection w1)) as Hin.
  { rewrite Hc. unfold appended. simpl. apply elem_of_app. right.
    by apply list_elem_of_singleton. }
  apply (run_keeps_row cs) in Hin; [|done]. fold w2 in Hin.
  destruct (reads_find_row row w2 n Hin Hn Hbound) as [Hlist Hrecall].
  split.
  - destruct Hlist as (documents & Hdocs & Hdoc).
    by exists documents, (doc_of_row row).
  - intros query q Hq Hdim.
    destruct (Hrecall query q Hq Hdim) as (documents & Hdocs & Hdoc).
    by exists documents, (doc_of_row row).
Qed.

(** C1 (as amended): [delete_memory] never raises.  On a collection whose
    [delete] ignores ids that are not there, as ChromaDB's does, it returns
    status ["success"] with the message ["Memory <id> deleted"] for every
    id, present or not, and the next [delete_memory] of the same id does so
    again; deleting an id that is not there leaves the world as it was.  On
    any collection, status ["error"] with ["Failed to delete memory: ..."]
    is returned exactly when the [delete] of the collection raises. *)
Theorem delete_memory_reports memory_id w :
  (fst (delete_memory memory_id w) = Return (deleted memory_id)
   ∧ fst (delete_memory memory_id (snd (delete_memory memory_id w)))
     = Return (deleted memory_id)
   ∧ deleted memory_id !! "status" = Some "success"
   ∧ Chroma.rows (collection (snd (delete_memory memory_id w)))
     = filter (λ r, Chroma.row_id r ≠ memory_id) (Chroma.rows (collection w))
   ∧ (memory_id ∉ Chroma.ids (collection w) →
      snd (delete_memory memory_id w) = w))
  ∧ (∀ (C : Type) (store : Collection C) (w' : World C),
       match coll_delete memory_id (collection w') with
       | Return c' =>
           delete_memory memory_id w'
           = (Return (deleted memory_id), set_collection c' w')
       | Raise exn =>
           delete_memory memory_id w' = (Return (delete_failed exn), w')
           ∧ delete_failed exn !! "status" = Some "error"
       end).
Proof.
  split.
  - rewrite !delete_memory_cases. simpl coll_delete. unfold Chroma.delete.
    cbn [fst snd]. repeat split.
    intros Habsent. destruct w as [[dim rs] ? ? ? ? ? ?].
    unfold set_collection. simpl in *. f_equal. f_equal.
    unfold Chroma.ids in Habsent. simpl in Habsent.
    induction rs as [|r rs IH]; [done|].
    rewrite fmap_cons, not_elem_of_cons in Habsent.
    destruct Habsent as [Hne Hrest].
    rewrite filter_cons_True by done. by rewrite IH.
  - intros C store w'. rewrite delete_memory_cases.
    by destruct (coll_delete _ _).
Qed.

End on_chroma.

(** ** The claims on the small deployment *)

Lemma demo_uuid4_inj : Inj (=) (=) (uuid4 Demo.host).
Proof.
  intros n m Heq. simpl in Heq. injection Heq as Heq.
  by apply (inj pretty).
Qed.

Lemma demo_fresh_world_issued : issued Demo.host Demo.fresh_world.
Proof. intros id Hid. by apply elem_of_nil in Hid. Qed.

Lemma demo_two_memories_issued : issued Demo.host Demo.two_memories.
Proof.
  apply (run_keeps_issued (H := Demo.distance)), demo_fresh_world_issued.
Qed.

(** C1, the claim as it stands, fails: on the new, empty collection
    [delete_memory("nonexistent-id")] returns status ["success"], not
    ["error"]; and after storing two memories and deleting the first, the
    second [delete_memory] of the same id returns status ["success"]
    again. *)
Lemma delete_absent_id_reports_success :
  ("nonexistent-id" ∉ Chroma.ids (collection Demo.fresh_world))
  ∧ fst (@delete_memory _ Demo.chroma "nonexistent-id" Demo.fresh_world)
    = Return (deleted "nonexistent-id")
  ∧ deleted "nonexistent-id" !! "status" = Some "success"
  ∧ deleted "nonexistent-id" !! "status" ≠ Some "error"
  ∧ deleted "nonexistent-id" !! "message"
    = Some "Memory nonexistent-id deleted"
  ∧ (let once := snd (@delete_memory _ Demo.chroma "id-0" Demo.two_memories) in
     "id-0" ∈ Chroma.ids (collection Demo.two_memories)
     ∧ ("id-0" ∉ Chroma.ids (collection once))
     ∧ (fst (@delete_memory _ Demo.chroma "id-0" once))
       = Return (deleted "id-0")
     ∧ deleted "id-0" !! "status" ≠ Some "error").
Proof.
  split; [apply not_elem_of_nil|].
  split; [reflexivity|]. split; [reflexivity|]. split; [discriminate|].
  split; [reflexivity|].
  split; [apply (bool_decide_unpack _); by vm_compute|].
  split; [apply (bool_decide_unpack _); by vm_compute|].
  split; [reflexivity|discriminate].
Qed.

Lemma delete_memory_reports_witness :
  ("nonexistent-id" ∉ Chroma.ids (collection Demo.fresh_world))
  ∧ fst (@delete_memory _ Demo.chroma "nonexistent-id" Demo.fresh_world)
    = Return (deleted "nonexistent-id")
  ∧ snd (@delete_memory _ Demo.chroma "nonexistent-id" Demo.fresh_world)
    = Demo.fresh_world.
Proof.
  assert ("nonexistent-id" ∉ Chroma.ids (collection Demo.fresh_world))
    as Habsent by apply not_elem_of_nil.
  destruct (@delete_memory_reports Demo.distance "nonexistent-id"
              Demo.fresh_world) as [(Hfst & _ & _ & _ & Hsame) _].
  split; [exact Habsent|]. split; [exact Hfst|exact (Hsame Habsent)].
Defined.

Lemma remember_embedding_failure_witness :
  embeddings_create Demo.host (api_calls Demo.two_memories)
    (embedding_model Demo.two_memories) "boom" = Raise Demo.ProviderDown
  ∧ fst (@remember _ Demo.chroma Demo.host "boom" Demo.two_memories)
    = Raise Demo.ProviderDown
  ∧ collection (snd (@remember _ Demo.chroma Demo.host "boom"
                       Demo.two_memories))
    = collection Demo.two_memories
  ∧ stdout (snd (@remember _ Demo.chroma Demo.host "boom" Demo.two_memories))
    = stdout Demo.two_memories.
Proof.
  split; [reflexivity|].
  apply (@remember_embedding_failure _ Demo.chroma Demo.host "boom"
           Demo.two_memories Demo.ProviderDown).
  reflexivity.
Defined.

Lemma read_paths_degrade_witness :
  embeddings_create Demo.host (api_calls Demo.two_memories)
    (embedding_model Demo.two_memories) "boom" = Raise Demo.ProviderDown
  ∧ @recall _ Demo.chroma Demo.host "boom" (VInt 3) Demo.two_memories
    = (Return [],
       logged "Error recalling memories: " Demo.ProviderDown
              (called_api Demo.two_memories))
  ∧ Chroma.get (VInt (-1)) (collection Demo.two_memories)
    = Raise (mkException "ValueError" "Limit cannot be negative")
  ∧ @list_memories _ Demo.chroma (VInt (-1)) Demo.two_memories
    = (Return [],
       logged "Error listing memories: "
              (mkException "ValueError" "Limit cannot be negative")
              Demo.two_memories).
Proof.
  destruct (@read_paths_degrade _ Demo.chroma Demo.host "boom" (VInt 3)
              Demo.two_memories) as (Hrecall & _).
  destruct (@read_paths_degrade _ Demo.chroma Demo.host "boom" (VInt (-1))
              Demo.two_memories) as (_ & Hlist & _).
  split; [reflexivity|]. split; [apply Hrecall; reflexivity|].
  split; [reflexivity|]. apply Hlist. reflexivity.
Defined.

Lemma issued_ids_unique_witness :
  Inj (=) (=) (uuid4 Demo.host)
  ∧ NoDup (fst (@run _ Demo.chroma Demo.host
                  [Remember "note"; DeleteMemory "id-0"; Remember "note"]
                  Demo.fresh_world)).
Proof.
  split; [exact demo_uuid4_inj|].
  apply (@issued_ids_unique _ Demo.chroma Demo.host
           [Remember "note"; DeleteMemory "id-0"; Remember "note"]
           Demo.fresh_world demo_uuid4_inj).
Defined.

Lemma empty_store_reads_witness :
  Chroma.rows (collection Demo.fresh_world) = []
  ∧ fst (@recall _ Demo.chroma Demo.host "color of the sky" VNone
           Demo.fresh_world) = Return []
  ∧ fst (@list_memories_default _ Demo.chroma Demo.fresh_world) = Return [].
Proof.
  split; [reflexivity|].
  apply (@empty_store_reads Demo.distance Demo.host "color of the sky" VNone
           (VInt 10) Demo.fresh_world).
  reflexivity.
Defined.

Lemma recall_default_bounded_witness :
  let w' := snd (@exec _ Demo.chroma Demo.host
                   (UpdateSettings "similarity_top_k" (VInt 1))
                   Demo.two_memories) in
  SETTINGS w' !! "similarity_top_k" = Some (VInt 1)
  ∧ 0 ≤ 1
  ∧ length (Chroma.rows (collection w')) = 2%nat
  ∧ ∃ documents,
      fst (@recall _ Demo.chroma Demo.host "Grass is green" VNone w')
      = Return documents
      ∧ Z.of_nat (length documents) ≤ 1.
Proof.
  intros w'.
  assert (SETTINGS w' !! "similarity_top_k" = Some (VInt 1)) as Hset
    by reflexivity.
  assert (0 ≤ 1) as Hk by lia.
  split; [exact Hset|]. split; [exact Hk|]. split; [reflexivity|].
  exact (proj1 (proj2 (@recall_default_bounded Demo.distance Demo.host
                         "Grass is green" w' 1 Hset Hk))).
Defined.

Lemma writes_frame_witness :
  let third :=
    @remember _ Demo.chroma Demo.host "Snow is white" Demo.two_memories in
  Inj (=) (=) (uuid4 Demo.host)
  ∧ issued Demo.host Demo.two_memories
  ∧ third = (Return (stored "id-2"), snd third)
  ∧ (∃ row,
       Chroma.rows (collection (snd third))
       = (Chroma.rows (collection Demo.two_memories) ++ [row])%list
       ∧ stored "id-2" !! "id" = Some (Chroma.row_id row)
       ∧ Chroma.row_document row = "Snow is white"
       ∧ length (Chroma.rows (collection (snd third)))
         = S (length (Chroma.rows (collection Demo.two_memories))))
  ∧ Chroma.rows
      (collection (snd (@delete_memory _ Demo.chroma "id-0"
                          Demo.two_memories)))
    = filter (λ r, Chroma.row_id r ≠ "id-0")
             (Chroma.rows (collection Demo.two_memories)).
Proof.
  intros third.
  assert (third = (Return (stored "id-2"), snd third)) as Hr by reflexivity.
  destruct (@writes_frame Demo.distance Demo.host Demo.two_memories
              demo_uuid4_inj demo_two_memories_issued)
    as (Hstore & _ & Hdelete & _).
  split; [exact demo_uuid4_inj|]. split; [exact demo_two_memories_issued|].
  split; [exact Hr|].
  split; [exact (Hstore "Snow is white" (stored "id-2") (snd third) Hr)|].
  exact (Hdelete "id-0").
Defined.

Lemma round_trip_witness :
  let stored_sky :=
    @remember _ Demo.chroma Demo.host "The sky is blue" Demo.fresh_world in
  let later := [Remember "Grass is green"; DeleteMemory "id-1"] in
  let w2 := snd (@run _ Demo.chroma Demo.host later (snd stored_sky)) in
  Inj (=) (=) (uuid4 Demo.host)
  ∧ issued Demo.host Demo.fresh_world
  ∧ stored_sky = (Return (stored "id-0"), snd stored_sky)
  ∧ stored "id-0" !! "id" = Some "id-0"
  ∧ (DeleteMemory "id-0" ∉ later)
  ∧ Z.of_nat (length (Chroma.rows (collection w2))) ≤ 10
  ∧ 10 < 2 ^ 63
  ∧ embeddings_create Demo.host (api_calls w2) (embedding_model w2)
      "color of the sky" = Return [0%Qc; 1%Qc]
  ∧ Chroma.dimension_ok (collection w2) [0%Qc; 1%Qc] = true
  ∧ (∃ documents d,
       fst (@list_memories _ Demo.chroma (VInt 10) w2) = Return documents
       ∧ d ∈ documents ∧ page_content d = "The sky is blue"
       ∧ metadata d !! "id" = Some "id-0")
  ∧ (∃ documents d,
       fst (@recall _ Demo.chroma Demo.host "color of the sky" (VInt 10) w2)
       = Return documents
       ∧ d ∈ documents ∧ page_content d = "The sky is blue"
       ∧ metadata d !! "id" = Some "id-0").
Proof.
  intros stored_sky later w2.
  assert (stored_sky = (Return (stored "id-0"), snd stored_sky)) as Hr
    by reflexivity.
  assert (DeleteMemory "id-0" ∉ later) as Hlater.
  { intros Hin. apply elem_of_cons in Hin as [[=]|Hin].
    apply elem_of_cons in Hin as [[=]|Hin]. by apply elem_of_nil in Hin. }
  assert (Z.of_nat (length (Chroma.rows (collection w2))) ≤ 10)
    as Hn by (vm_compute; discriminate).
  assert (10 < 2 ^ 63) as Hbound by reflexivity.
  destruct (@round_trip Demo.distance Demo.host "The sky is blue"
              Demo.fresh_world (stored "id-0") (snd stored_sky) "id-0"
              later 10 demo_uuid4_inj demo_fresh_world_issued Hr eq_refl
              Hlater Hn Hbound) as [Hlist Hrecall].
  split; [exact demo_uuid4_inj|]. split; [exact demo_fresh_world_issued|].
  split; [exact Hr|]. split; [reflexivity|]. split; [exact Hlater|].
  split; [exact Hn|]. split; [exact Hbound|].
  split; [reflexivity|]. split; [reflexivity|].
  split; [exact Hlist|].
  exact (Hrecall "color of the sky" [0%Qc; 1%Qc] eq_refl eq_refl).
Defined.

(** ** Further properties of the methods *)

Section settings.
Context {C : Type} `{!Collection C} (host : Host).

Lemma for_in_any_world {A} (body : nat → A → Py C A) xs acc w w' :
  (∀ i a w0 w0', fst (body i a w0) = fst (body i a w0')
                 ∧ snd (body i a w0) = w0) →
  fst (for_in xs body acc w) = fst (for_in xs body acc w').
Proof.
  intros Hbody. revert acc w w'.
  induction xs as [|i xs IH]; intros acc w w'; [done|].
  simpl. unfold bind.
  destruct (Hbody i acc w w') as [Hfst Hsnd].
  destruct (Hbody i acc w' w) as [_ Hsnd'].
  destruct (body i acc w) as [o w1], (body i acc w') as [o' w1'].
  simpl in *. subst. destruct o'; [apply IH|done].
Qed.

Lemma subscript_any_world {A B} (l : list A) i (k : A → Py C B) w w' :
  (∀ a w0 w0', fst (k a w0) = fst (k a w0') ∧ snd (k a w0) = w0) →
  fst (bind (lift (subscript l i)) k w) = fst (bind (lift (subscript l i)) k w')
  ∧ snd (bind (lift (subscript l i)) k w) = w.
Proof.
  intros Hk. unfold bind, lift. destruct (subscript l i); [apply Hk|done].
Qed.

Lemma recall_documents_any_world results (w w' : World C) :
  fst (recall_documents results w) = fst (recall_documents results w').
Proof.
  unfold recall_documents. destruct (q_ids results) as [|ids0 ?]; [done|].
  case_decide; [|done]. apply for_in_any_world. intros i a w0 w0'.
  repeat (apply subscript_any_world; intros). done.
Qed.

Lemma list_documents_any_world results (w w' : World C) :
  fst (list_documents results w) = fst (list_documents results w').
Proof.
  unfold list_documents. destruct (g_ids results) as [|? ?]; [done|].
  apply for_in_any_world. intros i a w0 w0'.
  repeat (apply subscript_any_world; intros). done.
Qed.

Lemma recall_with_settings settings query limit w :
  effective_limit limit (with_settings settings w) = effective_limit limit w →
  recall host query limit (with_settings settings w)
  = (fst (recall host query limit w),
     with_settings settings (snd (recall host query limit w))).
Proof.
  intros Hlimit. rewrite !recall_cases, Hlimit. simpl.
  destruct (embeddings_create _ _ _ _) as [e|exn]; [|done].
  destruct (coll_query _ _ _) as [results|exn]; [|done].
  pose proof (recall_documents_world results (called_api w)) as Hw.
  pose proof (recall_documents_world results
                (called_api (with_settings settings w))) as Hw'.
  pose proof (recall_documents_any_world results (called_api w)
                (called_api (with_settings settings w))) as Hfst.
  destruct (recall_documents results (called_api w)) as [o w1].
  destruct (recall_documents results
              (called_api (with_settings settings w))) as [o' w1'].
  simpl in *. subst. by destruct o'.
Qed.

(** X1: the methods do not look at [SETTINGS], with one exception: run in a
    world with another [SETTINGS] dict, [remember], [list_memories],
    [delete_memory] and [recall] with an explicit limit return the same
    outcome and leave the same world behind (the dict aside); so a change
    of ["embedding_model"], ["db_path"] or ["log_level"] at run time does
    not reach a tool that is already constructed.  The exception is
    [recall] without a limit, which depends on the dict through
    ["similarity_top_k"] only. *)
Theorem methods_ignore_settings settings w :
  (∀ text,
     remember host text (with_settings settings w)
     = (fst (remember host text w),
        with_settings settings (snd (remember host text w))))
  ∧ (∀ limit,
       list_memories limit (with_settings settings w)
       = (fst (list_memories limit w),
          with_settings settings (snd (list_memories limit w))))
  ∧ (∀ memory_id,
       delete_memory memory_id (with_settings settings w)
       = (fst (delete_memory memory_id w),
          with_settings settings (snd (delete_memory memory_id w))))
  ∧ (∀ query limit,
       limit ≠ VNone →
       recall host query limit (with_settings settings w)
       = (fst (recall host query limit w),
          with_settings settings (snd (recall host query limit w))))
  ∧ (∀ query,
       config.get_setting settings "similarity_top_k" (VInt 3)
       = config.get_setting (SETTINGS w) "similarity_top_k" (VInt 3) →
       recall host query VNone (with_settings settings w)
       = (fst (recall host query VNone w),
          with_settings settings (snd (recall host query VNone w)))).
Proof.
  split; [|split; [|split; [|split]]].
  - intros text. rewrite !remember_cases. simpl.
    destruct (embeddings_create _ _ _ _) as [e|exn]; [|done].
    by destruct (coll_add _ _ _ _ _).
  - intros limit. rewrite !list_memories_cases. simpl.
    destruct (coll_get _ _) as [results|exn]; [|done].
    pose proof (list_documents_world results w) as Hw.
    pose proof (list_documents_world results (with_settings settings w))
      as Hw'.
    pose proof (list_documents_any_world results w
                  (with_settings settings w)) as Hfst.
    destruct (list_documents results w) as [o w1].
    destruct (list_documents results (with_settings settings w)) as [o' w1'].
    simpl in *. subst. by destruct o'.
  - intros memory_id. rewrite !delete_memory_cases. simpl.
    by destruct (coll_delete _ _).
  - intros query limit Hlimit.
    apply recall_with_settings. by destruct limit.
  - intros query Hset. by apply recall_with_settings.
Qed.

(** X2: a value written with [update_settings] under
    ["similarity_top_k"] is the limit of the next [recall] without a limit:
    that [recall] returns what [recall] with this value as explicit limit
    returns, whatever the value was before. *)
Theorem updated_top_k_is_next_limit value query w :
  value ≠ VNone →
  let w' := snd (exec host (UpdateSettings "similarity_top_k" value) w) in
  recall host query VNone w' = recall host query value w'
  ∧ collection w' = collection w
  ∧ config.get_setting (SETTINGS w') "similarity_top_k" (VInt 3) = value.
Proof.
  intros Hvalue w'.
  assert (config.get_setting (SETTINGS w') "similarity_top_k" (VInt 3)
          = value) as Hset.
  { unfold w', exec. cbn [snd SETTINGS].
    unfold config.get_setting, config.update_settings.
    by rewrite lookup_insert_eq. }
  split; [|done]. rewrite !recall_cases.
  assert (effective_limit VNone w' = effective_limit value w') as ->; [|done].
  unfold effective_limit at 1. rewrite Hset. by destruct value.
Qed.

End settings.

(** ** Further properties on the ChromaDB collection *)

Section stored_rows.
Context `{!Chroma.Cosine} (host : Host).

Lemma get_rows_prefix limit c rs :
  Chroma.get_rows limit c = Return rs → rs `prefix_of` Chroma.rows c.
Proof.
  unfold Chroma.get_rows.
  destruct limit as [|b|n|s]; cbn [Chroma.as_int];
    repeat case_bool_decide; try done; intros [= <-];
    done || apply prefix_take.
Qed.

Lemma nearest_submseteq q limit c rs :
  Chroma.nearest q limit c = Return rs → rs ⊆+ Chroma.rows c.
Proof.
  intros (n & _ & _ & ->)%nearest_rows.
  etrans; [apply sublist_submseteq, sublist_take|].
  unfold Chroma.ranked. by rewrite merge_sort_Permutation.
Qed.

(** The rows behind the documents of [recall]. *)
Lemma recalled_rows query limit w :
  ∃ recalled,
    fst (recall host query limit w) = Return (doc_of_row <$> recalled)
    ∧ recalled ⊆+ Chroma.rows (collection w).
Proof.
  rewrite recall_chroma.
  destruct (embeddings_create _ _ _ _) as [q|exn];
    [|exists []; split; [done|apply submseteq_nil_l]].
  destruct (Chroma.nearest _ _ _) as [rs|exn] eqn:Hnear;
    [|exists []; split; [done|apply submseteq_nil_l]].
  exists rs. split; [done|]. by eapply nearest_submseteq.
Qed.

(** The rows behind the documents of [list_memories]. *)
Lemma listed_rows limit w :
  ∃ listed,
    fst (list_memories limit w) = Return (doc_of_row <$> listed)
    ∧ listed `prefix_of` Chroma.rows (collection w).
Proof.
  rewrite list_memories_chroma.
  destruct (Chroma.get_rows _ _) as [rs|exn] eqn:Hget;
    [|exists []; split; [done|apply prefix_nil]].
  exists rs. split; [done|]. by eapply get_rows_prefix.
Qed.

(** X3: whatever the query and the limits, [recall] and [list_memories]
    return documents of rows of the collection and nothing else:
    [list_memories] the documents of the first rows in insertion order,
    [recall] the documents of some of the rows, no row twice. *)
Theorem reads_return_stored_rows query limit limit' w :
  ∃ recalled listed,
    fst (recall host query limit w) = Return (doc_of_row <$> recalled)
    ∧ recalled ⊆+ Chroma.rows (collection w)
    ∧ fst (list_memories limit' w) = Return (doc_of_row <$> listed)
    ∧ listed `prefix_of` Chroma.rows (collection w).
Proof.
  destruct (recalled_rows query limit w) as (recalled & Hr & Hsub).
  destruct (listed_rows limit' w) as (listed & Hl & Hpre).
  exists recalled, listed. by repeat split.
Qed.

(** The documents of a read are documents of rows of the collection. *)
Lemma read_document_row query limit w ds d :
  fst (recall host query limit w) = Return ds
  ∨ fst (list_memories limit w) = Return ds →
  d ∈ ds →
  ∃ r, r ∈ Chroma.rows (collection w) ∧ d = doc_of_row r.
Proof.
  destruct (recalled_rows query limit w) as (recalled & Hr & Hsub).
  destruct (listed_rows limit w) as (listed & Hl & Hpre).
  intros [Hds|Hds] Hd.
  - rewrite Hr in Hds. injection Hds as <-.
    apply list_elem_of_fmap in Hd as (r & -> & Hin).
    exists r. split; [|done]. by eapply elem_of_submseteq.
  - rewrite Hl in Hds. injection Hds as <-.
    apply list_elem_of_fmap in Hd as (r & -> & Hin).
    exists r. split; [|done]. by eapply elem_of_prefix.
Qed.

Lemma remembered_metadata_id r :
  remembered r → Chroma.row_metadata r !! "id" = Some (Chroma.row_id r).
Proof. intros [ts ->]. done. Qed.

(** X4: after [delete_memory(id)] the id is in no row of the collection,
    and, on a collection whose rows [remember] has written, no document
    that [recall] or [list_memories] returns carries that id, whatever the
    query and the limit. *)
Theorem deleted_id_is_gone memory_id w :
  (∀ r, r ∈ Chroma.rows (collection w) → remembered r) →
  let w' := snd (delete_memory memory_id w) in
  (memory_id ∉ Chroma.ids (collection w'))
  ∧ ∀ query limit ds d,
      fst (recall host query limit w') = Return ds
      ∨ fst (list_memories limit w') = Return ds →
      d ∈ ds →
      metadata d !! "id" ≠ Some memory_id.
Proof.
  intros Hrem w'.
  assert (Chroma.rows (collection w')
          = filter (λ r, Chroma.row_id r ≠ memory_id)
                   (Chroma.rows (collection w))) as Hrows.
  { unfold w'. by rewrite delete_memory_cases. }
  split.
  - unfold Chroma.ids. rewrite Hrows.
    intros (r & -> & Hr)%list_elem_of_fmap.
    by apply list_elem_of_filter in Hr as [Hne _].
  - intros query limit ds d Hds Hd.
    destruct (read_document_row query limit w' ds d Hds Hd) as (r & Hr & ->).
    rewrite Hrows in Hr. apply list_elem_of_filter in Hr as [Hne Hr].
    simpl. rewrite (remembered_metadata_id r (Hrem r Hr)). congruence.
Qed.

(** A call keeps the rows as [remember] writes them. *)
Lemma exec_keeps_remembered c w :
  (∀ r, r ∈ Chroma.rows (collection w) → remembered r) →
  ∀ r, r ∈ Chroma.rows (collection (snd (exec host c w))) → remembered r.
Proof.
  intros Hrem.
  destruct c as [text|query limit|limit|memory_id|key value];
    unfold exec; cbv zeta; cbn [snd].
  - destruct (remember host text w) as [[res|exn] w1] eqn:Hr; cbn [snd].
    + apply remember_chroma in Hr as (e & _ & _ & _ & ->). simpl.
      case_bool_decide; [done|]. simpl. intros r [Hr|Hr]%elem_of_app; [auto|].
      apply list_elem_of_singleton in Hr as ->. by eexists.
    + rewrite remember_cases in Hr.
      destruct (embeddings_create _ _ _ _) as [e|?];
        [|by injection Hr as <- <-].
      destruct (coll_add _ _ _ _ _); [done|]. by injection Hr as <- <-.
  - by destruct (recall_frame host query limit w) as (-> & _).
  - by destruct (list_memories_frame limit w) as (-> & _).
  - rewrite delete_memory_cases. simpl.
    intros r [_ Hr]%list_elem_of_filter. auto.
  - done.
Qed.

Lemma run_keeps_remembered cs w :
  (∀ r, r ∈ Chroma.rows (collection w) → remembered r) →
  ∀ r, r ∈ Chroma.rows (collection (snd (run host cs w))) → remembered r.
Proof.
  revert w. induction cs as [|c cs IH]; intros w Hw; [done|].
  simpl. pose proof (exec_keeps_remembered c w Hw) as Hw1.
  destruct (exec host c w) as [i w1]. simpl in Hw1.
  specialize (IH w1 Hw1). by destruct (run host cs w1).
Qed.

(** X5: in a session that starts on a collection whose rows [remember] has
    written (the empty collection is one), every document that [recall] or
    [list_memories] returns afterwards carries the metadata of [remember]:
    the id of its row, which is an id of the collection, the type
    ["memory"] and a timestamp. *)
Theorem documents_carry_metadata cs w :
  (∀ r, r ∈ Chroma.rows (collection w) → remembered r) →
  let w' := snd (run host cs w) in
  ∀ query limit ds d,
    fst (recall host query limit w') = Return ds
    ∨ fst (list_memories limit w') = Return ds →
    d ∈ ds →
    ∃ id,
      metadata d !! "id" = Some id
      ∧ id ∈ Chroma.ids (collection w')
      ∧ metadata d !! "type" = Some "memory"
      ∧ is_Some (metadata d !! "timestamp").
Proof.
  intros Hrem w' query limit ds d Hds Hd.
  destruct (read_document_row query limit w' ds d Hds Hd) as (r & Hr & ->).
  destruct (run_keeps_remembered cs w Hrem r Hr) as [ts Hmd].
  exists (Chroma.row_id r). simpl. rewrite Hmd.
  split; [done|]. split; [by apply list_elem_of_fmap_2|]. split; [done|].
  by eexists.
Qed.

(** A call keeps the ids of the collection distinct and the embeddings of
    one dimension. *)
Lemma exec_keeps_consistent c w :
  NoDup (Chroma.ids (collection w)) → uniform (collection w) →
  NoDup (Chroma.ids (collection (snd (exec host c w))))
  ∧ uniform (collection (snd (exec host c w))).
Proof.
  intros Hnodup Huni.
  destruct c as [text|query limit|limit|memory_id|key value];
    unfold exec; cbv zeta; cbn [snd].
  - destruct (remember host text w) as [[res|exn] w1] eqn:Hr; cbn [snd].
    + apply remember_chroma in Hr as (e & _ & Hdim & _ & ->). simpl.
      case_bool_decide as Hold; [done|]. split.
      * unfold Chroma.ids, appended. simpl. rewrite fmap_app.
        apply NoDup_app. split; [done|]. split; [|apply NoDup_singleton].
        intros id Hid Hnew. apply list_elem_of_singleton in Hnew.
        simpl in Hnew. by subst.
      * intros r. unfold appended. simpl. intros [Hr|Hr]%elem_of_app.
        -- specialize (Huni r Hr). unfold Chroma.dimension_ok in Hdim.
           destruct e as [|x e]; [done|].
           rewrite Huni in Hdim. apply bool_decide_eq_true_1 in Hdim.
           by rewrite Hdim.
        -- by apply list_elem_of_singleton in Hr as ->.
    + rewrite remember_cases in Hr.
      destruct (embeddings_create _ _ _ _) as [e|?];
        [|by injection Hr as <- <-].
      destruct (coll_add _ _ _ _ _); [done|]. by injection Hr as <- <-.
  - by destruct (recall_frame host query limit w) as (-> & _).
  - by destruct (list_memories_frame limit w) as (-> & _).
  - rewrite delete_memory_cases. simpl. split.
    + unfold Chroma.ids. simpl. clear Huni.
      unfold Chroma.ids in Hnodup.
      induction (Chroma.rows (collection w)) as [|r rs IH]; [constructor|].
      rewrite fmap_cons in Hnodup. apply NoDup_cons in Hnodup as [Hr Hrs].
      rewrite filter_cons. case_decide; [|by apply IH].
      rewrite fmap_cons. apply NoDup_cons. split; [|by apply IH].
      intros (r' & Heq & Hr')%list_elem_of_fmap.
      apply list_elem_of_filter in Hr' as [_ Hr'].
      apply Hr. rewrite Heq. by apply list_elem_of_fmap_2.
    + intros r. simpl. intros [_ Hr]%list_elem_of_filter. by apply Huni.
  - done.
Qed.

(** X6: in a session that starts on a collection with distinct ids and
    embeddings of one dimension (the empty collection is one), the
    collection keeps both, whatever [uuid4] and the provider answer: no two
    rows share an id, and every embedding has the dimension of the
    collection. *)
Theorem collection_stays_consistent cs w :
  NoDup (Chroma.ids (collection w)) → uniform (collection w) →
  let w' := snd (run host cs w) in
  NoDup (Chroma.ids (collection w'))
  ∧ uniform (collection w')
  ∧ ∀ r1 r2,
      r1 ∈ Chroma.rows (collection w') → r2 ∈ Chroma.rows (collection w') →
      length (Chroma.row_embedding r1) = length (Chroma.row_embedding r2).
Proof.
  intros Hnodup Huni w'.
  assert (NoDup (Chroma.ids (collection w')) ∧ uniform (collection w'))
    as [Hnodup' Huni'].
  { unfold w'. clear w'. revert w Hnodup Huni.
    induction cs as [|c cs IH]; intros w Hnodup Huni; [done|].
    simpl. destruct (exec_keeps_consistent c w Hnodup Huni) as [Hn1 Hu1].
    destruct (exec host c w) as [i w1]. simpl in Hn1, Hu1.
    specialize (IH w1 Hn1 Hu1). by destruct (run host cs w1). }
  split; [done|]. split; [done|]. intros r1 r2 Hr1 Hr2.
  pose proof (Huni' r1 Hr1) as H1. pose proof (Huni' r2 Hr2) as H2.
  congruence.
Qed.

(** X7: on a collection with distinct ids, [delete_memory(id)] of an id
    that is there removes exactly one row, and of an id that is not there
    removes none. *)
Theorem delete_memory_count memory_id w :
  NoDup (Chroma.ids (collection w)) →
  let w' := snd (delete_memory memory_id w) in
  (memory_id ∈ Chroma.ids (collection w) →
   S (length (Chroma.rows (collection w')))
   = length (Chroma.rows (collection w)))
  ∧ (memory_id ∉ Chroma.ids (collection w) →
     Chroma.rows (collection w') = Chroma.rows (collection w)).
Proof.
  intros Hnodup w'.
  assert (Chroma.rows (collection w')
          = filter (λ r, Chroma.row_id r ≠ memory_id)
                   (Chroma.rows (collection w))) as ->.
  { unfold w'. by rewrite delete_memory_cases. }
  unfold Chroma.ids in *.
  induction (Chroma.rows (collection w)) as [|r rs IH]; simpl.
  { split; [by intros ?%elem_of_nil|done]. }
  rewrite fmap_cons in Hnodup. apply NoDup_cons in Hnodup as [Hr Hrs].
  destruct (IH Hrs) as [IHin IHout]. rewrite filter_cons.
  case_decide as Hne.
  - split.
    + intros [?|Hin]%elem_of_cons; [done|]. simpl. by rewrite (IHin Hin).
    + intros [_ Hout]%not_elem_of_cons. by rewrite (IHout Hout).
  - subst memory_id. split.
    + intros _. by rewrite (IHout Hr).
    + intros []%not_elem_of_cons. done.
Qed.

(** X8: [list_memories(limit=n)] with a limit from 1 to 2^63 - 1 returns
    the documents of the [n] oldest rows, oldest first; the limit 0 stands
    for no limit and lists all rows.  So after a [remember] that returns,
    the new memory is the last document of the list when the collection
    held fewer than [n] rows, and is not in the list at all when it already
    held [n] or more: the list is then what it was before. *)
Theorem list_shows_oldest_rows text w r w1 n :
  Inj (=) (=) (uuid4 host) → issued host w →
  remember host text w = (Return r, w1) →
  0 < n → n < 2 ^ 63 →
  let size := Z.of_nat (length (Chroma.rows (collection w))) in
  fst (list_memories (VInt n) w)
  = Return (doc_of_row <$> take (Z.to_nat n) (Chroma.rows (collection w)))
  ∧ fst (list_memories (VInt 0) w)
    = Return (doc_of_row <$> Chroma.rows (collection w))
  ∧ (n ≤ size →
     fst (list_memories (VInt n) w1) = fst (list_memories (VInt n) w))
  ∧ (size < n →
     ∃ d, fst (list_memories (VInt n) w1)
          = Return ((doc_of_row <$> Chroma.rows (collection w)) ++ [d])%list
          ∧ page_content d = text
          ∧ metadata d !! "id" = r !! "id").
Proof.
  intros Hinj Hissued Hr Hn Hbound size.
  destruct (remember_appends host text w r w1 Hinj Hissued Hr)
    as (e & _ & -> & Hc).
  rewrite !list_memories_chroma. unfold Chroma.get_rows.
  cbn [Chroma.as_int].
  rewrite (bool_decide_eq_true_2 (0 = 0)) by done.
  rewrite !bool_decide_eq_false_2 by lia. rewrite Hc. unfold appended.
  cbn [Chroma.rows fst].
  split; [done|]. split; [done|]. split.
  - intros Hle. rewrite take_app_le by lia. done.
  - intros Hlt. rewrite take_ge by (rewrite length_app; simpl; lia).
    rewrite fmap_app. eexists. split; [done|]. split; [done|].
    simpl. by rewrite stored_id.
Qed.

(** X9: a limit that is not a positive integer makes [recall] return the
    empty list and print one line, whatever the collection holds and
    whatever the provider answers; [list_memories] does the same for a
    negative limit, for a limit of 2^63 or more and for a non-empty
    string.  A limit of [list_memories] that is false as a truth value
    ([0], [False], the empty string) is no limit: all rows are listed and
    nothing is printed. *)
Theorem refused_limits_degrade query limit w :
  ((∀ n, Chroma.as_int (effective_limit limit w) = Some n → n ≤ 0) →
   ∃ exn,
     recall host query limit w
     = (Return [], logged "Error recalling memories: " exn (called_api w)))
  ∧ ((∃ n, Chroma.as_int limit = Some n ∧ (n < 0 ∨ 2 ^ 63 ≤ n))
     ∨ (∃ s, limit = VStr s ∧ s ≠ "") →
     ∃ exn,
       list_memories limit w
       = (Return [], logged "Error listing memories: " exn w))
  ∧ (limit = VInt 0 ∨ limit = VBool false ∨ limit = VStr "" →
     list_memories limit w
     = (Return (doc_of_row <$> Chroma.rows (collection w)), w)).
Proof.
  split; [|split].
  - intros Hbad. rewrite recall_chroma.
    destruct (embeddings_create _ _ _ _) as [q|exn]; [|by eexists].
    unfold Chroma.nearest.
    destruct (Chroma.as_int (effective_limit limit w)) as [n|];
      [|by eexists].
    rewrite bool_decide_eq_true_2 by by apply Hbad. by eexists.
  - intros Hrefused. rewrite list_memories_chroma. unfold Chroma.get_rows.
    destruct Hrefused as [(n & Hint & Hn)|(s & -> & Hs)].
    + destruct limit as [|b|m|s]; try done; rewrite Hint;
        rewrite (bool_decide_eq_false_2 (n = 0)) by lia;
        (destruct Hn;
         [rewrite (bool_decide_eq_true_2 (n < 0)) by lia
         |rewrite (bool_decide_eq_false_2 (n < 0)) by lia;
          rewrite (bool_decide_eq_true_2 (2 ^ 63 ≤ n)) by lia]);
        by eexists.
    + rewrite bool_decide_eq_false_2 by done. by eexists.
  - intros [-> | [-> | ->]]; by rewrite list_memories_chroma.
Qed.

End stored_rows.

(** ** The pages of streamlit_app.py *)

Section pages_any_collection.
Context {C : Type} `{!Collection C} (host : Host).

(** X10: the form "Create Memory" never raises and calls [remember] only
    when it was submitted with a non-empty text.  It then shows the success
    line with the new id when [remember] returned, and the line
    ["Error saving memory: ..."] with the exception when [remember]
    raised; the line ["Failed to save memory"] is never shown.  Submitted
    with an empty text it shows a warning and leaves the world as it
    was. *)
Theorem create_memory_outcomes submitted memory_text w :
  ∃ elements,
    fst (streamlit_app.create_memory host submitted memory_text w)
    = Return elements
    ∧ (streamlit_app.st_error "Failed to save memory" ∉ elements)
    ∧ (if submitted && nonempty memory_text then
         snd (streamlit_app.create_memory host submitted memory_text w)
         = snd (remember host memory_text w)
         ∧ match fst (remember host memory_text w) with
           | Return _ =>
               elements
               = [streamlit_app.st_success
                    ("Memory saved successfully with ID: "
                     ++ uuid4 host (uuid_calls w))]
           | Raise exn =>
               elements
               = [streamlit_app.st_error
                    ("Error saving memory: " ++ exc_str exn)]
           end
       else
         snd (streamlit_app.create_memory host submitted memory_text w) = w
         ∧ elements
           = if submitted
             then [streamlit_app.st_warning
                     "Please enter memory content before saving"]
             else []).
Proof.
  unfold streamlit_app.create_memory.
  destruct (submitted && nonempty memory_text) eqn:Hgo.
  - unfold try_except, bind. rewrite remember_cases.
    destruct (embeddings_create _ _ _ _) as [e|exn]; simpl.
    + destruct (coll_add _ _ _ _ _) as [c'|exn]; simpl.
      * eexists. split; [done|]. split; [|done].
        intros Hin. apply list_elem_of_singleton in Hin. done.
      * eexists. split; [done|]. split; [|done].
        intros Hin. apply list_elem_of_singleton in Hin.
        injection Hin as Hin. discriminate.
    + eexists. split; [done|]. split; [|done].
      intros Hin. apply list_elem_of_singleton in Hin.
      injection Hin as Hin. discriminate.
  - destruct submitted; simpl; eexists; (split; [done|]); (split; [|done]).
    + intros Hin. apply list_elem_of_singleton in Hin. done.
    + apply not_elem_of_nil.
Qed.

End pages_any_collection.

Section pages_on_chroma.
Context `{!Chroma.Cosine} (host : Host).

(** [delete_memory] on the collection. *)
Lemma delete_memory_chroma memory_id w :
  delete_memory memory_id w
  = (Return (deleted memory_id),
     set_collection
       (Chroma.mk (Chroma.dimension (collection w))
          (filter (λ r, Chroma.row_id r ≠ memory_id)
                  (Chroma.rows (collection w))))
       w).
Proof. by rewrite delete_memory_cases. Qed.

Lemma bind_eq {C A B} (m : Py C A) (k : A → Py C B) w :
  bind m k w = match m w with
               | (Return a, w') => k a w'
               | (Raise e, w') => (Raise e, w')
               end.
Proof. done. Qed.

Lemma deleted_status memory_id :
  dict_subscript (deleted memory_id) "status" = Return "success".
Proof. done. Qed.

Lemma stored_subscripts memory_id :
  dict_subscript (stored memory_id) "status" = Return "success"
  ∧ dict_subscript (stored memory_id) "id" = Return memory_id.
Proof. done. Qed.

(** The edit form with "Update Memory" pressed and a text: [delete_memory],
    then [remember] in the world the deletion left. *)
Lemma edit_memory_update old session cancel content w :
  nonempty content = true →
  streamlit_app.edit_memory host old session true cancel content w
  = match remember host content (snd (delete_memory old w)) with
    | (Return _, w2) =>
        (Return ([streamlit_app.st_success
                    ("Memory updated successfully with new ID: "
                     ++ uuid4 host (uuid_calls w))],
                 streamlit_app.not_editing, streamlit_app.Reruns), w2)
    | (Raise exn, w2) => (Raise exn, w2)
    end.
Proof.
  intros Hcontent. unfold streamlit_app.edit_memory.
  rewrite Hcontent. cbn [andb]. rewrite !bind_eq.
  rewrite delete_memory_chroma. cbn [snd]. cbv beta iota. rewrite !bind_eq.
  unfold lift at 1. rewrite deleted_status. cbv beta iota.
  rewrite decide_True by done. rewrite bind_eq, !remember_cases.
  cbn [snd collection set_collection uuid_calls api_calls embedding_model
       clock_reads].
  destruct (embeddings_create _ _ _ _) as [e|exn]; [|done].
  destruct (coll_add _ _ _ _ _) as [c'|exn]; [|done].
  rewrite bind_eq. unfold lift at 1.
  destruct (stored_subscripts (uuid4 host (uuid_calls w))) as [-> Hid].
  rewrite decide_True by done. rewrite bind_eq. unfold lift at 1.
  by rewrite Hid.
Qed.

(** X11: the edit form with "Update Memory" pressed, when the provider
    answers the new text with an embedding the collection accepts (not
    empty, and of the collection's dimension when it has one; [add] raises
    on any other and stores nothing): the rows with the old id are removed, one row with the new text is appended under an id
    that no row had before, every other row stays as it was, the page shows
    the new id, the session leaves the editing state and the script
    reruns. *)
Theorem edit_memory_replaces old session cancel content e w :
  Inj (=) (=) (uuid4 host) → issued host w →
  nonempty content = true →
  embeddings_create host (api_calls w) (embedding_model w) content
  = Return e →
  Chroma.dimension_ok (collection w) e = true →
  let new := uuid4 host (uuid_calls w) in
  let edited := streamlit_app.edit_memory host old session true cancel
                  content w in
  fst edited
  = Return ([streamlit_app.st_success
               ("Memory updated successfully with new ID: " ++ new)],
            streamlit_app.not_editing, streamlit_app.Reruns)
  ∧ Chroma.rows (collection (snd edited))
    = (filter (λ r, Chroma.row_id r ≠ old) (Chroma.rows (collection w))
       ++ [Chroma.mkRow new e
             (memory_metadata new (now_isoformat host (clock_reads w)))
             content])%list
  ∧ (new ∉ Chroma.ids (collection w))
  ∧ (old ∈ Chroma.ids (collection w) → new ≠ old).
Proof.
  intros Hinj Hissued Hcontent He Hdim new edited.
  pose proof (issued_fresh host w Hinj Hissued) as Hfresh. fold new in Hfresh.
  assert (new ∉ Chroma.ids
            (Chroma.mk (Chroma.dimension (collection w))
               (filter (λ r, Chroma.row_id r ≠ old)
                       (Chroma.rows (collection w))))) as Hfresh'.
  { intros Hin. by apply ids_filter in Hin. }
  unfold edited. rewrite edit_memory_update by done.
  rewrite delete_memory_chroma, remember_cases.
  cbn [snd collection set_collection uuid_calls api_calls embedding_model
       clock_reads].
  rewrite He. simpl coll_add. unfold Chroma.add.
  assert (Chroma.dimension_ok
            (Chroma.mk (Chroma.dimension (collection w))
               (filter (λ r, Chroma.row_id r ≠ old)
                       (Chroma.rows (collection w)))) e = true) as ->
    by done.
  fold new. rewrite bool_decide_eq_false_2 by done.
  split; [done|]. split; [done|]. split; [done|].
  intros Hold ->. done.
Qed.

(** X12: the edit form with "Update Memory" pressed, when the provider
    fails on the new text: the exception leaves the form, the rows with the
    old id are already removed and nothing is stored in their place, so
    the memory under edit is lost. *)
Theorem edit_memory_loses_on_failure old session cancel content exn w :
  nonempty content = true →
  embeddings_create host (api_calls w) (embedding_model w) content
  = Raise exn →
  let edited := streamlit_app.edit_memory host old session true cancel
                  content w in
  fst edited = Raise exn
  ∧ Chroma.rows (collection (snd edited))
    = filter (λ r, Chroma.row_id r ≠ old) (Chroma.rows (collection w))
  ∧ (old ∉ Chroma.ids (collection (snd edited)))
  ∧ ∀ r, r ∈ Chroma.rows (collection (snd edited)) →
         r ∈ Chroma.rows (collection w).
Proof.
  intros Hcontent He edited.
  assert (fst edited = Raise exn
          ∧ Chroma.rows (collection (snd edited))
            = filter (λ r, Chroma.row_id r ≠ old)
                     (Chroma.rows (collection w))) as [Hfst Hrows].
  { unfold edited. rewrite edit_memory_update by done.
    rewrite delete_memory_chroma, remember_cases.
    cbn [snd collection set_collection uuid_calls api_calls embedding_model
         clock_reads].
    by rewrite He. }
  split; [done|]. split; [done|]. split.
  - unfold Chroma.ids. rewrite Hrows.
    intros (r & -> & Hr)%list_elem_of_fmap.
    by apply list_elem_of_filter in Hr as [Hne _].
  - intros r Hr. rewrite Hrows in Hr.
    by apply list_elem_of_filter in Hr as [_ Hr].
Qed.

(** X13: the page "Delete Memory" touches the collection only when the
    button is pressed with a non-empty id and the confirmation checked; it
    then shows ["Memory <id> deleted successfully"] for every id, in the
    collection or not.  Otherwise the world stays as it was and the page
    shows at most the two warnings. *)
Theorem delete_page_outcomes delete_button memory_id confirm w :
  let page := streamlit_app.delete_page delete_button memory_id confirm w in
  if delete_button && nonempty memory_id && confirm then
    fst page
    = Return [streamlit_app.st_success
                ("Memory " ++ memory_id ++ " deleted successfully")]
    ∧ snd page = snd (delete_memory memory_id w)
  else
    snd page = w
    ∧ ∃ elements,
        fst page = Return elements
        ∧ ∀ x, x ∈ elements →
               x = streamlit_app.st_warning "Please enter a memory ID"
               ∨ x = streamlit_app.st_warning "Please confirm deletion".
Proof.
  intros page. unfold page, streamlit_app.delete_page.
  destruct (delete_button && nonempty memory_id && confirm) eqn:Hgo.
  - unfold try_except, bind. by rewrite delete_memory_chroma.
  - destruct delete_button; simpl; (split; [done|]); eexists;
      (split; [done|]); [|by intros x ?%elem_of_nil].
    intros x Hx. destruct (nonempty memory_id), confirm; simpl in *;
      try discriminate; repeat
        (apply elem_of_cons in Hx as [->|Hx]; [by auto|]);
      by apply elem_of_nil in Hx.
Qed.

End pages_on_chroma.

(** ** The tool handler of server.py *)

Section handler_any_collection.
Context {C : Type} `{!Collection C} (host : Host).
Context (str_arguments : gmap string PyVal → string).

(** What the tool is after the first two statements of the handler: the
    clock has been read once, nothing else has changed. *)
Lemma enter_memory_tool name arguments (s : server.State C) :
  server.memory_tool (server.enter host str_arguments name arguments s)
  = mkWorld (collection (server.memory_tool s))
      (embedding_model (server.memory_tool s))
      (SETTINGS (server.memory_tool s)) (stdout (server.memory_tool s))
      (uuid_calls (server.memory_tool s))
      (S (clock_reads (server.memory_tool s)))
      (api_calls (server.memory_tool s)).
Proof. done. Qed.

(** X14: a call of ["remember"], ["recall"] or ["delete"] whose text,
    query or id is missing, [None], empty, zero or false is answered with
    the fixed error text of its branch, and a call of a name that is none
    of the five tools with ["Unknown tool: <name>"]; in both cases the
    handler returns, the tool is not called (the collection, the ids drawn,
    the provider calls, the settings and the console are as before) and
    only the clock has been read once for the line in the startup log. *)
Theorem invalid_calls_stop_at_the_handler name arguments
    (s : server.State C) :
  let s1 := server.enter host str_arguments name arguments s in
  let missing key :=
    server.truthy (default (VStr "") (arguments !! key)) = false in
  let answer body :=
    server.tool_handler host str_arguments name arguments s
    = Some (Return (server.reply body), s1) in
  (collection (server.memory_tool s1) = collection (server.memory_tool s)
   ∧ uuid_calls (server.memory_tool s1) = uuid_calls (server.memory_tool s)
   ∧ api_calls (server.memory_tool s1) = api_calls (server.memory_tool s)
   ∧ SETTINGS (server.memory_tool s1) = SETTINGS (server.memory_tool s)
   ∧ stdout (server.memory_tool s1) = stdout (server.memory_tool s)
   ∧ clock_reads (server.memory_tool s1)
     = S (clock_reads (server.memory_tool s))
   ∧ length (server.startup_log s1) = S (length (server.startup_log s)))
  ∧ (name = "remember" → missing "text" →
     answer "Error: No memory text provided.")
  ∧ (name = "recall" → missing "query" →
     answer "Error: No query provided.")
  ∧ (name = "delete" → missing "id" →
     answer "Error: No memory ID provided.")
  ∧ (name ∉ ["remember"; "recall"; "list"; "delete"; "config"] →
     answer ("Unknown tool: " ++ name)).
Proof.
  intros s1 missing answer. split; [|split; [|split; [|split]]].
  - repeat split; try done. unfold s1, server.enter. simpl.
    rewrite length_app. simpl. lia.
  - intros -> Hmissing. unfold answer, server.tool_handler, server.dispatch.
    fold s1. rewrite decide_True by done. unfold missing in Hmissing.
    by rewrite Hmissing.
  - intros -> Hmissing. unfold answer, server.tool_handler, server.dispatch.
    fold s1. rewrite decide_False by done. rewrite decide_True by done.
    unfold missing in Hmissing. by rewrite Hmissing.
  - intros -> Hmissing. unfold answer, server.tool_handler, server.dispatch.
    fold s1. rewrite !(decide_False (P := "delete" = _)) by done.
    rewrite decide_True by done.
    unfold missing in Hmissing. by rewrite Hmissing.
  - intros Hname. unfold answer, server.tool_handler, server.dispatch.
    fold s1. rewrite !not_elem_of_cons in Hname.
    destruct Hname as (? & ? & ? & ? & ? & _).
    by rewrite !decide_False by done.
Qed.

(** X15: ["remember"] with a non-empty string calls [remember] once, in
    the world the entry of the handler left.  When [remember] returns, the
    reply is the fixed line with the first 50 characters of the text
    (characters, not bytes: a text of accented letters keeps 50 of them):
    it does not depend on the result, so it does not tell the id.  When
    [remember] raises, the exception leaves the handler. *)
Theorem remember_reply arguments memory_text (s : server.State C) :
  arguments !! "text" = Some (VStr memory_text) →
  nonempty memory_text = true →
  let s1 := server.enter host str_arguments "remember" arguments s in
  let after := remember host memory_text (server.memory_tool s1) in
  server.tool_handler host str_arguments "remember" arguments s
  = Some (match fst after with
          | Return _ =>
              Return (server.reply ("âœ“ I'll remember that: "
                                    ++ server.slice_to 50 memory_text
                                    ++ "..."))
          | Raise exn => Raise exn
          end,
          server.mkState (snd after) (server.startup_log s1)
                         (server.logger_debug s1)).
Proof.
  intros Htext Hnonempty s1 after.
  unfold server.tool_handler, server.dispatch. fold s1.
  rewrite decide_True by done. rewrite Htext. simpl default.
  unfold server.truthy. rewrite Hnonempty. simpl negb. cbv iota.
  unfold bind, ret. fold after. by destruct after as [[r|exn] w].
Qed.

(** X16: ["recall"] with a non-empty query string and no limit recalls
    with the limit of [recall] without a limit, also when
    ["similarity_top_k"] is missing from [SETTINGS].  The reply is
    ["I don't recall anything related to that."] exactly when [recall]
    returns no document, and this is what a failure of the provider gives
    as well; the handler itself never raises here. *)
Theorem recall_reply arguments query (s : server.State C) :
  arguments !! "query" = Some (VStr query) →
  nonempty query = true →
  arguments !! "limit" = None →
  let s1 := server.enter host str_arguments "recall" arguments s in
  let w1 := server.memory_tool s1 in
  ∃ memories,
    fst (recall host query VNone w1) = Return memories
    ∧ server.tool_handler host str_arguments "recall" arguments s
      = Some (Return
                (server.reply
                   (match memories with
                    | [] => "I don't recall anything related to that."
                    | _ =>
                        server.render 0 memories
                          ("Here's what I recall:"
                           ++ server.newline ++ server.newline)
                    end)),
              server.mkState (snd (recall host query VNone w1))
                (server.startup_log s1) (server.logger_debug s1))
    ∧ (∀ exn,
         embeddings_create host (api_calls w1) (embedding_model w1) query
         = Raise exn →
         memories = []).
Proof.
  intros Hquery Hnonempty Hlimit s1 w1.
  assert (recall host query
            (config.get_setting (SETTINGS w1) "similarity_top_k" VNone) w1
          = recall host query VNone w1) as Hsame.
  { rewrite !recall_cases.
    assert (effective_limit
              (config.get_setting (SETTINGS w1) "similarity_top_k" VNone) w1
            = effective_limit VNone w1) as ->; [|done].
    unfold effective_limit, config.get_setting.
    destruct (SETTINGS w1 !! "similarity_top_k") as [[]|]; done. }
  destruct (recall host query VNone w1) as [[memories|exn] w2] eqn:Hrecall.
  - exists memories. split; [done|]. split.
    + unfold server.tool_handler, server.dispatch. fold s1. fold w1.
      rewrite decide_False by done. rewrite decide_True by done.
      rewrite Hquery. simpl default.
      unfold server.truthy. rewrite Hnonempty. simpl negb. cbv iota.
      rewrite Hlimit. simpl default.
      unfold bind at 1, get_setting. rewrite bind_eq, Hsame.
      by destruct memories.
    + intros exn Hfail. rewrite recall_cases, Hfail in Hrecall. congruence.
  - rewrite recall_cases in Hrecall.
    destruct (embeddings_create _ _ _ _) as [e|?]; [|done].
    destruct (coll_query _ _ _) as [results|?]; [|done].
    by destruct (recall_documents results _) as [[?|?] ?].
Qed.

End handler_any_collection.

Section handler_on_chroma.
Context `{!Chroma.Cosine} (host : Host).
Context (str_arguments : gmap string PyVal → string).

(** X17: ["delete"] with a non-empty string id is answered with
    ["Memory deleted successfully."] for every id, whether a memory has it
    or not; the rows with that id are removed and no other. *)
Theorem delete_reply arguments memory_id (s : server.State Chroma.t) :
  arguments !! "id" = Some (VStr memory_id) →
  nonempty memory_id = true →
  let s1 := server.enter host str_arguments "delete" arguments s in
  ∃ s2,
    server.tool_handler host str_arguments "delete" arguments s
    = Some (Return (server.reply "Memory deleted successfully."), s2)
    ∧ Chroma.rows (collection (server.memory_tool s2))
      = filter (λ r, Chroma.row_id r ≠ memory_id)
               (Chroma.rows (collection (server.memory_tool s))).
Proof.
  intros Hid Hnonempty s1.
  unfold server.tool_handler, server.dispatch. fold s1.
  rewrite !(decide_False (P := "delete" = _)) by done.
  rewrite decide_True by done. rewrite Hid. simpl default.
  unfold server.truthy. rewrite Hnonempty. simpl negb. cbv iota.
  rewrite bind_eq, delete_memory_chroma. rewrite bind_eq. unfold lift at 1.
  rewrite deleted_status. rewrite decide_True by done.
  eexists. split; [done|]. done.
Qed.

(** X18: ["config"] accepts a string as value of ["similarity_top_k"] and
    answers ["Updated similarity_top_k to <value>"]; from then on
    ["recall"] without a limit is answered with
    ["I don't recall anything related to that."], whatever the collection
    holds, because the collection refuses a limit that is not an
    integer. *)
Theorem string_top_k_silences_recall set_arguments value recall_arguments
    query (s : server.State Chroma.t) :
  set_arguments !! "action" = Some (VStr "set") →
  set_arguments !! "key" = Some (VStr "similarity_top_k") →
  set_arguments !! "value" = Some (VStr value) →
  recall_arguments !! "query" = Some (VStr query) →
  nonempty query = true →
  recall_arguments !! "limit" = None →
  ∃ s1,
    server.tool_handler host str_arguments "config" set_arguments s
    = Some (Return (server.reply ("Updated similarity_top_k to " ++ value)),
            s1)
    ∧ collection (server.memory_tool s1) = collection (server.memory_tool s)
    ∧ ∃ s2,
        server.tool_handler host str_arguments "recall" recall_arguments s1
        = Some (Return
                  (server.reply "I don't recall anything related to that."),
                s2).
Proof.
  intros Haction Hkey Hvalue Hquery Hnonempty Hlimit.
  eexists. split; [|split].
  - unfold server.tool_handler, server.dispatch.
    rewrite !(decide_False (P := "config" = _)) by done.
    rewrite decide_True by done. rewrite Haction, Hkey, Hvalue. simpl default.
    rewrite decide_False by done. rewrite decide_True by done.
    simpl. reflexivity.
  - done.
  - unfold server.tool_handler, server.dispatch.
    rewrite decide_False by done. rewrite decide_True by done.
    rewrite Hquery. simpl default.
    unfold server.truthy. rewrite Hnonempty. simpl negb. cbv iota.
    rewrite Hlimit. simpl default.
    unfold bind at 1, get_setting. rewrite bind_eq, recall_chroma.
    cbn [server.memory_tool server.enter snd datetime_now_isoformat SETTINGS
         collection api_calls embedding_model].
    unfold config.get_setting, config.update_settings.
    rewrite lookup_insert_eq.
    destruct (embeddings_create _ _ _ _) as [q|exn]; by eexists.
Qed.

End handler_on_chroma.

(** ** The settings at import *)

Section startup_settings.
Context (getenv : string → option string) (py_int : string → option Z)
        (logging_attr : string → option PyVal) (DB_DIR : string).

(** X19: whatever the environment holds, [SETTINGS] starts with an integer
    under ["similarity_top_k"]: the value of [SIMILARITY_TOP_K] when
    [int] accepts it, and 3 when the variable is unset, empty or not an
    integer.  [EMBEDDING_MODEL] and [DB_PATH] are taken as they are, so
    set to the empty string they make the setting the empty string, not
    the default. *)
Theorem initial_settings :
  let settings := startup.SETTINGS getenv py_int logging_attr DB_DIR in
  (∃ n, settings !! "similarity_top_k" = Some (VInt n)
        ∧ (n = 3
           ∨ ∃ val_str, getenv "SIMILARITY_TOP_K" = Some val_str
                        ∧ val_str ≠ "" ∧ py_int val_str = Some n))
  ∧ (∀ val_str n,
       getenv "SIMILARITY_TOP_K" = Some val_str → val_str ≠ "" →
       py_int val_str = Some n →
       settings !! "similarity_top_k" = Some (VInt n))
  ∧ (getenv "SIMILARITY_TOP_K" = None ∨ getenv "SIMILARITY_TOP_K" = Some ""
     ∨ (∃ val_str, getenv "SIMILARITY_TOP_K" = Some val_str
                   ∧ py_int val_str = None) →
     settings !! "similarity_top_k" = Some (VInt 3))
  ∧ settings !! "embedding_model"
    = Some (VStr (default "text-embedding-3-small"
                          (getenv "EMBEDDING_MODEL")))
  ∧ settings !! "db_path" = Some (VStr (default DB_DIR (getenv "DB_PATH"))).
Proof.
  intros settings.
  assert (settings !! "similarity_top_k"
          = Some (config._get_env_int getenv py_int "SIMILARITY_TOP_K"
                    (VInt 3))) as Hk.
  { unfold settings, startup.SETTINGS, startup.env_settings. simpl.
    unfold config._get_env_int.
    destruct (getenv "SIMILARITY_TOP_K") as [val_str|];
      [case_decide; [|destruct (py_int val_str)]|];
      simpl; by rewrite lookup_insert_eq. }
  split; [|split; [|split; [|split]]].
  - rewrite Hk. unfold config._get_env_int.
    destruct (getenv "SIMILARITY_TOP_K") as [val_str|] eqn:Henv;
      [|by eexists; split; [|left]].
    case_decide; [by eexists; split; [|left]|].
    destruct (py_int val_str) as [n|] eqn:Hint;
      [|by eexists; split; [|left]].
    exists n. split; [done|]. right. by exists val_str.
  - intros val_str n Henv Hne Hint. rewrite Hk. unfold config._get_env_int.
    rewrite Henv, decide_False by done. by rewrite Hint.
  - intros Hcase. rewrite Hk. unfold config._get_env_int.
    destruct Hcase as [->|[->|(val_str & -> & Hint)]]; [done..|].
    case_decide; [done|]. by rewrite Hint.
  - unfold settings, startup.SETTINGS, startup.env_settings,
      startup.getenv_or. simpl.
    destruct (config._get_env_int _ _ _ _);
      rewrite ?(lookup_insert_ne _ "similarity_top_k") by done;
      by rewrite lookup_insert_eq.
  - unfold settings, startup.SETTINGS, startup.env_settings,
      startup.getenv_or. simpl.
    destruct (config._get_env_int _ _ _ _);
      rewrite ?(lookup_insert_ne _ "similarity_top_k") by done;
      rewrite (lookup_insert_ne _ "embedding_model") by done;
      by rewrite lookup_insert_eq.
Qed.

End startup_settings.

(** ** The further properties on the small deployment *)

Lemma demo_two_memories_remembered r :
  r ∈ Chroma.rows (collection Demo.two_memories) → remembered r.
Proof.
  apply (run_keeps_remembered (H := Demo.distance) Demo.host).
  intros r0 Hr0. by apply elem_of_nil in Hr0.
Qed.

Lemma demo_two_memories_ids :
  NoDup (Chroma.ids (collection Demo.two_memories)).
Proof. apply (bool_decide_unpack _). by vm_compute. Qed.

Lemma methods_ignore_settings_witness :
  VInt 2 ≠ VNone
  ∧ @recall _ Demo.chroma Demo.host "color of the sky" (VInt 2)
      (with_settings ∅ Demo.two_memories)
    = (fst (@recall _ Demo.chroma Demo.host "color of the sky" (VInt 2)
              Demo.two_memories),
       with_settings ∅
         (snd (@recall _ Demo.chroma Demo.host "color of the sky" (VInt 2)
                 Demo.two_memories))).
Proof.
  assert (VInt 2 ≠ VNone) as Hlimit by discriminate.
  destruct (@methods_ignore_settings _ Demo.chroma Demo.host ∅
              Demo.two_memories) as (_ & _ & _ & Hrecall & _).
  split; [exact Hlimit|].
  exact (Hrecall "color of the sky" (VInt 2) Hlimit).
Defined.

Lemma updated_top_k_is_next_limit_witness :
  VInt 1 ≠ VNone
  ∧ (let w' := snd (@exec _ Demo.chroma Demo.host
                      (UpdateSettings "similarity_top_k" (VInt 1))
                      Demo.two_memories) in
     @recall _ Demo.chroma Demo.host "color of the sky" VNone w'
     = @recall _ Demo.chroma Demo.host "color of the sky" (VInt 1) w').
Proof.
  assert (VInt 1 ≠ VNone) as Hvalue by discriminate.
  split; [exact Hvalue|].
  exact (proj1 (@updated_top_k_is_next_limit _ Demo.chroma Demo.host (VInt 1)
                  "color of the sky" Demo.two_memories Hvalue)).
Defined.

Lemma deleted_id_is_gone_witness :
  (∀ r, r ∈ Chroma.rows (collection Demo.two_memories) → remembered r)
  ∧ ("id-0" ∈ Chroma.ids (collection Demo.two_memories))
  ∧ ("id-0" ∉ Chroma.ids
       (collection (snd (@delete_memory _ Demo.chroma "id-0"
                           Demo.two_memories)))).
Proof.
  split; [exact demo_two_memories_remembered|].
  split; [apply (bool_decide_unpack _); by vm_compute|].
  exact (proj1 (@deleted_id_is_gone Demo.distance Demo.host "id-0"
                  Demo.two_memories demo_two_memories_remembered)).
Defined.

Lemma documents_carry_metadata_witness :
  let session := [Remember "Snow is white"; DeleteMemory "id-0"] in
  let w' := snd (@run _ Demo.chroma Demo.host session Demo.fresh_world) in
  (∀ r, r ∈ Chroma.rows (collection Demo.fresh_world) → remembered r)
  ∧ ∀ ds d,
      fst (@list_memories _ Demo.chroma (VInt 10) w') = Return ds →
      d ∈ ds →
      ∃ id, metadata d !! "id" = Some id
            ∧ id ∈ Chroma.ids (collection w')
            ∧ metadata d !! "type" = Some "memory"
            ∧ is_Some (metadata d !! "timestamp").
Proof.
  intros session w'.
  assert (∀ r, r ∈ Chroma.rows (collection Demo.fresh_world) → remembered r)
    as Hempty by (intros r Hr; by apply elem_of_nil in Hr).
  split; [exact Hempty|]. intros ds d Hds Hd.
  exact (@documents_carry_metadata Demo.distance Demo.host session
           Demo.fresh_world Hempty "any" (VInt 10) ds d (or_intror Hds) Hd).
Defined.

Lemma collection_stays_consistent_witness :
  let session := [Remember "Snow is white"; DeleteMemory "id-0"] in
  NoDup (Chroma.ids (collection Demo.fresh_world))
  ∧ uniform (collection Demo.fresh_world)
  ∧ NoDup (Chroma.ids
             (collection (snd (@run _ Demo.chroma Demo.host session
                                 Demo.fresh_world)))).
Proof.
  intros session.
  assert (NoDup (Chroma.ids (collection Demo.fresh_world))) as Hids
    by constructor.
  assert (uniform (collection Demo.fresh_world)) as Huniform
    by (intros r Hr; by apply elem_of_nil in Hr).
  split; [exact Hids|]. split; [exact Huniform|].
  exact (proj1 (@collection_stays_consistent Demo.distance Demo.host session
                  Demo.fresh_world Hids Huniform)).
Defined.

Lemma delete_memory_count_witness :
  NoDup (Chroma.ids (collection Demo.two_memories))
  ∧ ("id-0" ∈ Chroma.ids (collection Demo.two_memories))
  ∧ S (length (Chroma.rows
                 (collection (snd (@delete_memory _ Demo.chroma "id-0"
                                     Demo.two_memories)))))
    = length (Chroma.rows (collection Demo.two_memories)).
Proof.
  assert ("id-0" ∈ Chroma.ids (collection Demo.two_memories)) as Hin
    by (apply (bool_decide_unpack _); by vm_compute).
  split; [exact demo_two_memories_ids|]. split; [exact Hin|].
  exact (proj1 (@delete_memory_count Demo.distance "id-0" Demo.two_memories
                  demo_two_memories_ids) Hin).
Defined.

Lemma list_shows_oldest_rows_witness :
  let third :=
    @remember _ Demo.chroma Demo.host "Snow is white" Demo.two_memories in
  Inj (=) (=) (uuid4 Demo.host)
  ∧ issued Demo.host Demo.two_memories
  ∧ third = (Return (stored "id-2"), snd third)
  ∧ 0 < 2
  ∧ 2 < 2 ^ 63
  ∧ 2 ≤ Z.of_nat (length (Chroma.rows (collection Demo.two_memories)))
  ∧ fst (@list_memories _ Demo.chroma (VInt 2) (snd third))
    = fst (@list_memories _ Demo.chroma (VInt 2) Demo.two_memories)
  ∧ fst (@list_memories _ Demo.chroma (VInt 0) Demo.two_memories)
    = Return (doc_of_row <$> Chroma.rows (collection Demo.two_memories)).
Proof.
  intros third.
  assert (third = (Return (stored "id-2"), snd third)) as Hr by reflexivity.
  assert (0 < 2) as Hn by lia.
  assert (2 < 2 ^ 63) as Hbound by reflexivity.
  assert (2 ≤ Z.of_nat (length (Chroma.rows (collection Demo.two_memories))))
    as Hfull by (vm_compute; discriminate).
  destruct (@list_shows_oldest_rows Demo.distance Demo.host "Snow is white"
              Demo.two_memories (stored "id-2") (snd third) 2
              demo_uuid4_inj demo_two_memories_issued Hr Hn Hbound)
    as (_ & Hall & Hsame & _).
  split; [exact demo_uuid4_inj|]. split; [exact demo_two_memories_issued|].
  split; [exact Hr|]. split; [exact Hn|]. split; [exact Hbound|].
  split; [exact Hfull|]. split; [exact (Hsame Hfull)|exact Hall].
Defined.

Lemma refused_limits_degrade_witness :
  ((∀ n, Chroma.as_int (effective_limit (VInt 0) Demo.two_memories) = Some n →
         n ≤ 0)
   ∧ ∃ exn,
       @recall _ Demo.chroma Demo.host "The sky is blue" (VInt 0)
         Demo.two_memories
       = (Return [],
          logged "Error recalling memories: " exn
                 (called_api Demo.two_memories)))
  ∧ ((∃ n, Chroma.as_int (VInt (2 ^ 63)) = Some n ∧ (n < 0 ∨ 2 ^ 63 ≤ n))
     ∧ ∃ exn,
         @list_memories _ Demo.chroma (VInt (2 ^ 63)) Demo.two_memories
         = (Return [],
            logged "Error listing memories: " exn Demo.two_memories))
  ∧ ((∃ s, VStr "10" = VStr s ∧ s ≠ "")
     ∧ ∃ exn,
         @list_memories _ Demo.chroma (VStr "10") Demo.two_memories
         = (Return [],
            logged "Error listing memories: " exn Demo.two_memories)).
Proof.
  assert (∀ n, Chroma.as_int (effective_limit (VInt 0) Demo.two_memories)
               = Some n → n ≤ 0) as Hbad.
  { intros n [= <-]. lia. }
  assert (∃ n, Chroma.as_int (VInt (2 ^ 63)) = Some n
               ∧ (n < 0 ∨ 2 ^ 63 ≤ n)) as Hbig.
  { exists (2 ^ 63). split; [reflexivity|]. right. lia. }
  assert (∃ s, VStr "10" = VStr s ∧ s ≠ "") as Hstr.
  { exists "10". split; [reflexivity|discriminate]. }
  split; [|split].
  - split; [exact Hbad|].
    exact (proj1 (@refused_limits_degrade Demo.distance Demo.host
                    "The sky is blue" (VInt 0) Demo.two_memories) Hbad).
  - split; [exact Hbig|].
    exact (proj1 (proj2 (@refused_limits_degrade Demo.distance Demo.host
                           "The sky is blue" (VInt (2 ^ 63))
                           Demo.two_memories)) (or_introl Hbig)).
  - split; [exact Hstr|].
    exact (proj1 (proj2 (@refused_limits_degrade Demo.distance Demo.host
                           "The sky is blue" (VStr "10")
                           Demo.two_memories)) (or_intror Hstr)).
Defined.

Lemma edit_memory_replaces_witness :
  let edited :=
    @streamlit_app.edit_memory _ Demo.chroma Demo.host "id-0"
      (streamlit_app.mkSessionState true (Some "id-0") "The sky is blue")
      true false "The sky is grey" Demo.two_memories in
  Inj (=) (=) (uuid4 Demo.host)
  ∧ issued Demo.host Demo.two_memories
  ∧ nonempty "The sky is grey" = true
  ∧ embeddings_create Demo.host (api_calls Demo.two_memories)
      (embedding_model Demo.two_memories) "The sky is grey"
    = Return [0%Qc; 1%Qc]
  ∧ Chroma.dimension_ok (collection Demo.two_memories) [0%Qc; 1%Qc] = true
  ∧ fst edited
    = Return ([streamlit_app.st_success
                 "Memory updated successfully with new ID: id-2"],
              streamlit_app.not_editing, streamlit_app.Reruns)
  ∧ Chroma.ids (collection (snd edited)) = ["id-1"; "id-2"].
Proof.
  intros edited.
  destruct (@edit_memory_replaces Demo.distance Demo.host "id-0"
              (streamlit_app.mkSessionState true (Some "id-0")
                 "The sky is blue")
              false "The sky is grey" [0%Qc; 1%Qc] Demo.two_memories
              demo_uuid4_inj demo_two_memories_issued eq_refl eq_refl
              eq_refl) as (Hfst & _).
  split; [exact demo_uuid4_inj|]. split; [exact demo_two_memories_issued|].
  split; [reflexivity|]. split; [reflexivity|]. split; [reflexivity|].
  split; [exact Hfst|]. reflexivity.
Defined.

Lemma edit_memory_loses_on_failure_witness :
  let edited :=
    @streamlit_app.edit_memory _ Demo.chroma Demo.host "id-0"
      (streamlit_app.mkSessionState true (Some "id-0") "The sky is blue")
      true false "boom" Demo.two_memories in
  nonempty "boom" = true
  ∧ embeddings_create Demo.host (api_calls Demo.two_memories)
      (embedding_model Demo.two_memories) "boom"
    = Raise Demo.ProviderDown
  ∧ ("id-0" ∈ Chroma.ids (collection Demo.two_memories))
  ∧ fst edited = Raise Demo.ProviderDown
  ∧ ("id-0" ∉ Chroma.ids (collection (snd edited))).
Proof.
  intros edited.
  destruct (@edit_memory_loses_on_failure Demo.distance Demo.host "id-0"
              (streamlit_app.mkSessionState true (Some "id-0")
                 "The sky is blue")
              false "boom" Demo.ProviderDown Demo.two_memories
              eq_refl eq_refl) as (Hfst & _ & Hgone & _).
  split; [reflexivity|]. split; [reflexivity|].
  split; [apply (bool_decide_unpack _); by vm_compute|].
  split; [exact Hfst|exact Hgone].
Defined.

Lemma invalid_calls_stop_at_the_handler_witness :
  server.truthy (default (VStr "") ((∅ : gmap string PyVal) !! "text"))
  = false
  ∧ @server.tool_handler _ Demo.chroma Demo.host Sample.str_arguments "remember" ∅
      Sample.server_state
    = Some (Return (server.reply "Error: No memory text provided."),
            server.enter Demo.host Sample.str_arguments "remember" ∅
              Sample.server_state)
  ∧ ("forget" ∉ ["remember"; "recall"; "list"; "delete"; "config"])
  ∧ @server.tool_handler _ Demo.chroma Demo.host Sample.str_arguments "forget" ∅
      Sample.server_state
    = Some (Return (server.reply "Unknown tool: forget"),
            server.enter Demo.host Sample.str_arguments "forget" ∅
              Sample.server_state).
Proof.
  assert ("forget" ∉ ["remember"; "recall"; "list"; "delete"; "config"])
    as Hname.
  { rewrite !not_elem_of_cons. repeat split; try discriminate.
    apply not_elem_of_nil. }
  destruct (@invalid_calls_stop_at_the_handler _ Demo.chroma Demo.host
              Sample.str_arguments "remember" ∅ Sample.server_state)
    as (_ & Hremember & _).
  destruct (@invalid_calls_stop_at_the_handler _ Demo.chroma Demo.host
              Sample.str_arguments "forget" ∅ Sample.server_state)
    as (_ & _ & _ & _ & Hunknown).
  split; [reflexivity|]. split; [exact (Hremember eq_refl eq_refl)|].
  split; [exact Hname|exact (Hunknown Hname)].
Defined.

Lemma remember_reply_witness :
  let memory_text := Sample.accented 60 in
  let arguments : gmap string PyVal := {["text" := VStr memory_text]} in
  arguments !! "text" = Some (VStr memory_text)
  ∧ nonempty memory_text = true
  ∧ String.length memory_text = 120%nat
  ∧ fst <$> @server.tool_handler _ Demo.chroma Demo.host Sample.str_arguments "remember"
              arguments Sample.server_state
    = Some (Return (server.reply ("âœ“ I'll remember that: "
                                  ++ Sample.accented 50 ++ "..."))).
Proof.
  intros memory_text arguments.
  pose proof (@remember_reply _ Demo.chroma Demo.host Sample.str_arguments
                arguments memory_text Sample.server_state
                eq_refl eq_refl) as Hreply.
  split; [reflexivity|]. split; [reflexivity|]. split; [reflexivity|].
  rewrite Hreply. reflexivity.
Defined.

Lemma recall_reply_witness :
  let arguments : gmap string PyVal := {["query" := VStr "boom"]} in
  let w1 := server.memory_tool
              (server.enter Demo.host Sample.str_arguments "recall"
                 arguments Sample.server_state) in
  arguments !! "query" = Some (VStr "boom")
  ∧ nonempty "boom" = true
  ∧ arguments !! "limit" = None
  ∧ embeddings_create Demo.host (api_calls w1) (embedding_model w1) "boom"
    = Raise Demo.ProviderDown
  ∧ fst <$> @server.tool_handler _ Demo.chroma Demo.host Sample.str_arguments "recall"
              arguments Sample.server_state
    = Some (Return
              (server.reply "I don't recall anything related to that.")).
Proof.
  intros arguments w1.
  destruct (@recall_reply _ Demo.chroma Demo.host Sample.str_arguments
              arguments "boom" Sample.server_state eq_refl eq_refl eq_refl)
    as (memories & _ & Hreply & Hfail).
  split; [reflexivity|]. split; [reflexivity|]. split; [reflexivity|].
  split; [reflexivity|].
  rewrite Hreply. rewrite (Hfail Demo.ProviderDown eq_refl). reflexivity.
Defined.

Lemma delete_reply_witness :
  let arguments : gmap string PyVal := {["id" := VStr "nonexistent-id"]} in
  arguments !! "id" = Some (VStr "nonexistent-id")
  ∧ nonempty "nonexistent-id" = true
  ∧ ("nonexistent-id" ∉ Chroma.ids (collection Demo.two_memories))
  ∧ ∃ s2,
      @server.tool_handler _ Demo.chroma Demo.host Sample.str_arguments "delete" arguments
        Sample.server_state
      = Some (Return (server.reply "Memory deleted successfully."), s2).
Proof.
  intros arguments.
  destruct (@delete_reply Demo.distance Demo.host Sample.str_arguments
              arguments "nonexistent-id" Sample.server_state
              eq_refl eq_refl) as (s2 & Hreply & _).
  split; [reflexivity|]. split; [reflexivity|].
  split; [apply (bool_decide_unpack _); by vm_compute|].
  exists s2. exact Hreply.
Defined.

Lemma string_top_k_silences_recall_witness :
  let set_arguments : gmap string PyVal :=
    <["action" := VStr "set"]>
    (<["key" := VStr "similarity_top_k"]> {["value" := VStr "5"]}) in
  let recall_arguments : gmap string PyVal :=
    {["query" := VStr "The sky is blue"]} in
  set_arguments !! "action" = Some (VStr "set")
  ∧ set_arguments !! "key" = Some (VStr "similarity_top_k")
  ∧ set_arguments !! "value" = Some (VStr "5")
  ∧ recall_arguments !! "query" = Some (VStr "The sky is blue")
  ∧ nonempty "The sky is blue" = true
  ∧ recall_arguments !! "limit" = None
  ∧ ∃ s1,
      @server.tool_handler _ Demo.chroma Demo.host Sample.str_arguments "config"
        set_arguments Sample.server_state
      = Some (Return (server.reply "Updated similarity_top_k to 5"), s1)
      ∧ ∃ s2,
          @server.tool_handler _ Demo.chroma Demo.host Sample.str_arguments "recall"
            recall_arguments s1
          = Some (Return
                    (server.reply "I don't recall anything related to that."),
                  s2).
Proof.
  intros set_arguments recall_arguments.
  destruct (@string_top_k_silences_recall Demo.distance Demo.host
              Sample.str_arguments set_arguments "5" recall_arguments
              "The sky is blue" Sample.server_state
              eq_refl eq_refl eq_refl eq_refl eq_refl eq_refl)
    as (s1 & Hset & _ & Hrecall).
  split; [reflexivity|]. split; [reflexivity|]. split; [reflexivity|].
  split; [reflexivity|]. split; [reflexivity|]. split; [reflexivity|].
  exists s1. split; [exact Hset|exact Hrecall].
Defined.

Lemma initial_settings_witness :
  let settings :=
    startup.SETTINGS Sample.getenv Sample.py_int Sample.logging_attr
      "data/pippa_memory_db" in
  Sample.getenv "SIMILARITY_TOP_K" = Some "7"
  ∧ "7" ≠ ""
  ∧ Sample.py_int "7" = Some 7
  ∧ settings !! "similarity_top_k" = Some (VInt 7)
  ∧ settings !! "embedding_model" = Some (VStr "").
Proof.
  intros settings.
  destruct (initial_settings Sample.getenv Sample.py_int Sample.logging_attr
              "data/pippa_memory_db") as (_ & Hset & _ & Hmodel & _).
  assert ("7" ≠ "") as Hne by discriminate.
  split; [reflexivity|]. split; [exact Hne|]. split; [reflexivity|].
  split; [exact (Hset "7" 7 eq_refl Hne eq_refl)|exact Hmodel].
Defined.
